(** * SurveyProcessor: header matching and response encoding

    A shallow embedding of [SurveyProcessor.py].  Python [str] values are
    modelled as [string]; a character is a code point below 256 (Latin-1),
    on which [str.lower], [str.strip] and the regular expression class [\s]
    are modelled exactly.  Python [int] is [Z], lists are [list], and
    a raised exception is a value of the [result] type. *)

From Stdlib Require Import String Ascii List ZArith QArith Lia Bool Arith.
Import ListNotations.
Close Scope Q_scope.
Open Scope string_scope.
Open Scope nat_scope.

(** ** Python strings *)

Module PyStr.

(** [str.isspace] on one character: U+0009..U+000D, U+001C..U+0020,
    U+0085 and U+00A0.  [str.strip()] and the pattern [\s] use this class. *)
Definition isspace (c : ascii) : bool :=
  let n := nat_of_ascii c in
  ((9 <=? n) && (n <=? 13)) || ((28 <=? n) && (n <=? 32))
  || (n =? 133) || (n =? 160).

(** [str.lower] on one character: A..Z and U+00C0..U+00DE except U+00D7. *)
Definition lower_char (c : ascii) : ascii :=
  let n := nat_of_ascii c in
  if ((65 <=? n) && (n <=? 90))
     || ((192 <=? n) && (n <=? 222) && negb (n =? 215))
  then ascii_of_nat (n + 32) else c.

Fixpoint lower (s : string) : string :=
  match s with
  | EmptyString => EmptyString
  | String c s' => String (lower_char c) (lower s')
  end.

Fixpoint lstrip (s : string) : string :=
  match s with
  | EmptyString => EmptyString
  | String c s' => if isspace c then lstrip s' else s
  end.

Definition is_empty (s : string) : bool :=
  match s with EmptyString => true | _ => false end.

Fixpoint rstrip (s : string) : string :=
  match s with
  | EmptyString => EmptyString
  | String c s' =>
      let t := rstrip s' in
      if is_empty t && isspace c then EmptyString else String c t
  end.

(** [s.strip()] *)
Definition strip (s : string) : string := rstrip (lstrip s).

(** [s] starts with [p] *)
Fixpoint starts_with (p s : string) : bool :=
  match p, s with
  | EmptyString, _ => true
  | String _ _, EmptyString => false
  | String a p', String b s' => Ascii.eqb a b && starts_with p' s'
  end.

(** [needle in s] on strings *)
Fixpoint contains (needle s : string) : bool :=
  if starts_with needle s then true
  else match s with
       | EmptyString => false
       | String _ s' => contains needle s'
       end.

(** [s.replace(c, "")] for a one-character [c] *)
Fixpoint remove_char (c : ascii) (s : string) : string :=
  match s with
  | EmptyString => EmptyString
  | String d s' =>
      if Ascii.eqb d c then remove_char c s' else String d (remove_char c s')
  end.

(** [re.sub(r"\s+", " ", s)]: every maximal run of whitespace becomes one
    space.  [in_run] records that the previous character was whitespace. *)
Fixpoint collapse_from (in_run : bool) (s : string) : string :=
  match s with
  | EmptyString => EmptyString
  | String c s' =>
      if isspace c
      then if in_run then collapse_from true s'
           else String " " (collapse_from true s')
      else String c (collapse_from false s')
  end.

Definition collapse_ws (s : string) : string := collapse_from false s.

Fixpoint all_space (s : string) : bool :=
  match s with
  | EmptyString => true
  | String c s' => isspace c && all_space s'
  end.

End PyStr.

(** ** The similarity ratio of the standard library

    [SequenceMatcher(None, a, b).ratio()] of Python's [difflib], with its
    default [autojunk=True]: the longest matching block is found first, then
    the pieces to its left and to its right are matched recursively, and the
    ratio is twice the number of matched characters over the total length.
    A float is represented by the rational number it denotes. *)

Module Difflib.

Section Matcher.

Variables a b : list ascii.

Definition at_a (i : nat) : ascii := nth i a Ascii.zero.
Definition at_b (j : nat) : ascii := nth j b Ascii.zero.

Fixpoint positions (c : ascii) (l : list ascii) (j : nat) : list nat :=
  match l with
  | [] => []
  | d :: l' =>
      if Ascii.eqb d c then j :: positions c l' (S j)
      else positions c l' (S j)
  end.

(** [autojunk]: when [b] has at least 200 elements, an element occurring
    more than [len(b) // 100 + 1] times is dropped from [b2j]. *)
Definition popular (c : ascii) : bool :=
  (200 <=? length b) && (length b / 100 + 1 <? length (positions c b 0)).

Definition b2j (c : ascii) : list nat :=
  if popular c then [] else positions c b 0.

Fixpoint j2len_get (m : list (nat * nat)) (j : nat) : nat :=
  match m with
  | [] => 0
  | (j', k) :: m' => if j' =? j then k else j2len_get m' j
  end.

Definition block : Type := nat * nat * nat.

(** the loop [for j in b2j.get(a[i], nothing)] of [find_longest_match] *)
Fixpoint scan_row (blo bhi i : nat) (js : list nat)
         (j2len newj2len : list (nat * nat)) (best : block)
  : list (nat * nat) * block :=
  match js with
  | [] => (newj2len, best)
  | j :: js' =>
      if j <? blo then scan_row blo bhi i js' j2len newj2len best
      else if bhi <=? j then (newj2len, best)
      else
        let k := match j with
                 | O => 0
                 | S j' => j2len_get j2len j'
                 end + 1 in
        let '(_, _, bestsize) := best in
        scan_row blo bhi i js' j2len ((j, k) :: newj2len)
                 (if bestsize <? k then (i + 1 - k, j + 1 - k, k)
                  else best)
  end.

(** the loop [for i in range(alo, ahi)] *)
Fixpoint scan_rows (blo bhi : nat) (rows : list nat)
         (j2len : list (nat * nat)) (best : block) : block :=
  match rows with
  | [] => best
  | i :: rows' =>
      let '(newj2len, best') :=
        scan_row blo bhi i (b2j (at_a i)) j2len [] best in
      scan_rows blo bhi rows' newj2len best'
  end.

(** the two loops that extend the best block by matching elements on
    each end; with [isjunk=None] no element of [b] is junk, so the two
    further loops over junk elements never run *)
Fixpoint extend_back (fuel alo blo : nat) (best : block) : block :=
  match fuel with
  | O => best
  | S fuel' =>
      let '(besti, bestj, bestsize) := best in
      if (alo <? besti) && (blo <? bestj)
         && Ascii.eqb (at_a (besti - 1)) (at_b (bestj - 1))
      then extend_back fuel' alo blo (besti - 1, bestj - 1, bestsize + 1)
      else best
  end.

Fixpoint extend_fwd (fuel ahi bhi : nat) (best : block) : block :=
  match fuel with
  | O => best
  | S fuel' =>
      let '(besti, bestj, bestsize) := best in
      if (besti + bestsize <? ahi) && (bestj + bestsize <? bhi)
         && Ascii.eqb (at_a (besti + bestsize)) (at_b (bestj + bestsize))
      then extend_fwd fuel' ahi bhi (besti, bestj, bestsize + 1)
      else best
  end.

Definition find_longest_match (alo ahi blo bhi : nat) : block :=
  let best := scan_rows blo bhi (seq alo (ahi - alo)) [] (alo, blo, 0) in
  let best := extend_back (length a) alo blo best in
  extend_fwd (length a) ahi bhi best.

(** the sum of the sizes of [get_matching_blocks()]; every recursive call
    is on a strictly shorter slice of [a], so [length a + 1] levels of
    recursion are never exhausted *)
Fixpoint matched (fuel alo ahi blo bhi : nat) : nat :=
  match fuel with
  | O => 0
  | S fuel' =>
      let '(i, j, k) := find_longest_match alo ahi blo bhi in
      if k =? 0 then 0
      else k
           + (if (alo <? i) && (blo <? j)
              then matched fuel' alo i blo j else 0)
           + (if (i + k <? ahi) && (j + k <? bhi)
              then matched fuel' (i + k) ahi (j + k) bhi else 0)
  end.

Definition matches : nat :=
  matched (S (length a)) 0 (length a) 0 (length b).

End Matcher.

(** Float division [n / d] of two integers with [0 <= n <= d], as Python
    computes it: the binary64 number nearest to the quotient, ties to even,
    given as the rational it denotes.  The significand has 53 bits. *)
Definition round_half_even (n d : Z) : Z :=
  let q := (n / d)%Z in
  let r := (n mod d)%Z in
  if (d <? 2 * r)%Z then (q + 1)%Z
  else if (2 * r =? d)%Z && Z.odd q then (q + 1)%Z
  else q.

Definition float_div (n : Z) (d : positive) : Q :=
  if (n <=? 0)%Z then 0%Q
  else
    let k0 := (52 + Z.log2 (Zpos d) - Z.log2 n)%Z in
    let k := if (n * 2 ^ k0 / Zpos d <? 2 ^ 52)%Z then (k0 + 1)%Z else k0 in
    Qmake (round_half_even (n * 2 ^ k) (Zpos d)) (Z.to_pos (2 ^ k)).

(** [_calculate_ratio(matches, len(a) + len(b))]:
    [2.0 * matches / length] when [length] is not zero, else [1.0] *)
Definition ratio (x y : string) : Q :=
  let a := list_ascii_of_string x in
  let b := list_ascii_of_string y in
  let total := length a + length b in
  if total =? 0 then 1%Q
  else float_div (2 * Z.of_nat (matches a b)) (Pos.of_nat total).

End Difflib.

(** ** Exceptions and list access *)

Inductive exn : Type := IndexError | ValueError.

Inductive result (A : Type) : Type :=
| Ok (a : A)
| Raise (e : exn).
Arguments Ok {A} a.
Arguments Raise {A} e.

Definition bind {A B : Type} (m : result A) (f : A -> result B) : result B :=
  match m with
  | Ok a => f a
  | Raise e => Raise e
  end.

Notation "x <- m ;; k" := (bind m (fun x => k))
  (at level 61, m at next level, right associativity).

Fixpoint mapM {A B : Type} (f : A -> result B) (l : list A)
  : result (list B) :=
  match l with
  | [] => Ok []
  | x :: l' => y <- f x ;; ys <- mapM f l' ;; Ok (y :: ys)
  end.

Definition len {A : Type} (l : list A) : Z := Z.of_nat (length l).

(** [l[i]]: a negative index counts from the end, an index out of range
    raises [IndexError] *)
Definition py_getitem {A : Type} (l : list A) (i : Z) : result A :=
  let j := if (i <? 0)%Z then (i + len l)%Z else i in
  if (j <? 0)%Z then Raise IndexError
  else match nth_error l (Z.to_nat j) with
       | Some x => Ok x
       | None => Raise IndexError
       end.

(** [x in l] on a list of strings *)
Definition py_in (x : string) (l : list string) : bool :=
  existsb (String.eqb x) l.

(** [l.index(x)]: the first position of [x], [ValueError] when absent *)
Fixpoint index_from (x : string) (l : list string) (i : Z) : result Z :=
  match l with
  | [] => Raise ValueError
  | y :: l' => if String.eqb y x then Ok i else index_from x l' (i + 1)%Z
  end.

Definition py_index (l : list string) (x : string) : result Z :=
  index_from x l 0%Z.

(** ** The program *)

Import PyStr.

(** the value a cell of the master sheet receives: an [int] or a [str] *)
Inductive code : Type :=
| Int (n : Z)
| Str (s : string).

Definition ERROR : string := "ERROR".

(** the floats [0.6] and [0.35] *)
Definition default_cutoff : Q := Qmake 5404319552844595 9007199254740992.
Definition question_cutoff : Q := Qmake 3152519739159347 9007199254740992.

(** [re.sub(r"\s+", " ", s.lower().replace("?", "").strip())] *)
Definition normalize (s : string) : string :=
  collapse_ws (strip (remove_char "?" (lower s))).

(** first pass of [find_best_column]; [i] is the loop index of [enumerate] *)
Fixpoint substring_pass (norm_q : string) (headers : list string) (i : Z)
  : option Z :=
  match headers with
  | [] => None
  | h :: hs =>
      if contains norm_q (normalize h) then Some (i + 1)%Z
      else substring_pass norm_q hs (i + 1)%Z
  end.

Definition Qlt_bool (x y : Q) : bool := negb (Qle_bool y x).

(** second pass of [find_best_column], threading [best_score, best_idx] *)
Fixpoint fuzzy_pass (norm_q : string) (headers : list string) (i : Z)
         (best : Q * Z) : Q * Z :=
  match headers with
  | [] => best
  | h :: hs =>
      let score := Difflib.ratio norm_q (normalize h) in
      if Qlt_bool (fst best) score
      then fuzzy_pass norm_q hs (i + 1)%Z (score, i)
      else fuzzy_pass norm_q hs (i + 1)%Z best
  end.

Definition find_best_column (keyword : string) (headers : list string)
           (fuzzy_cutoff : Q) : Z :=
  let norm_q := normalize keyword in
  match substring_pass norm_q headers 0%Z with
  | Some col => col
  | None =>
      let '(best_score, best_idx) :=
        fuzzy_pass norm_q headers 0%Z (0%Q, (-1)%Z) in
      if Qle_bool fuzzy_cutoff best_score then (best_idx + 1)%Z
      else (-1)%Z
  end.

(** the module-level variables set by [main_function] and read by the
    functions below *)
Record Sheets : Type := {
  attendance_values : list string;
  pre_values : list (list string);
  post_values : list (list string);
  pre_headers : list string;
  post_headers : list string;
  questions : list string
}.

(** the loop shared by [find_pre_column] and [find_post_column] *)
Fixpoint find_column (keyword : string) (headers : list string) (i : Z) : Z :=
  match headers with
  | [] => (-1)%Z
  | h :: hs =>
      if contains keyword h then (i + 1)%Z
      else find_column keyword hs (i + 1)%Z
  end.

Definition find_pre_column (d : Sheets) (keyword : string) : Z :=
  find_column keyword (pre_headers d) 0%Z.

Definition find_post_column (d : Sheets) (keyword : string) : Z :=
  find_column keyword (post_headers d) 0%Z.

(** [[row[col - 1] if len(row) >= col else "" for row in values]] *)
Definition column_values (col : Z) (values : list (list string))
  : result (list string) :=
  mapM (fun row => if (col <=? len row)%Z then py_getitem row (col - 1)%Z
                   else Ok "") values.

Fixpoint find_value (identifier : string) (vals : list string) (i : Z) : Z :=
  match vals with
  | [] => (-1)%Z
  | value :: vs =>
      if String.eqb (lower value) (lower identifier) then (i + 1)%Z
      else find_value identifier vs (i + 1)%Z
  end.

Definition find_pre_row_by_id (d : Sheets) (identifier : string) : result Z :=
  let col := find_pre_column d "Personal Identifier:" in
  if (col =? -1)%Z then Ok (-1)%Z
  else vals <- column_values col (pre_values d) ;;
       Ok (find_value identifier vals 0%Z).

Definition find_post_row_by_id (d : Sheets) (identifier : string) : result Z :=
  let col := find_post_column d "Personal Identifier:" in
  if (col =? -1)%Z then Ok (-1)%Z
  else vals <- column_values col (post_values d) ;;
       Ok (find_value identifier vals 0%Z).

Definition compile_post_response (d : Sheets) (row : Z) (question : string)
  : result string :=
  let col := find_post_column d question in
  let col := if (col =? -1)%Z
             then find_best_column question (post_headers d) question_cutoff
             else col in
  if (col =? -1)%Z || (row =? -1)%Z then Ok ERROR
  else r <- py_getitem (post_values d) (row - 1)%Z ;;
       py_getitem r (col - 1)%Z.

Definition compile_pre_response (d : Sheets) (row : Z) (question : string)
  : result string :=
  let col := find_pre_column d question in
  let col := if (col =? -1)%Z
             then find_best_column question (pre_headers d) question_cutoff
             else col in
  if (col =? -1)%Z || (row =? -1)%Z then Ok ERROR
  else r <- py_getitem (pre_values d) (row - 1)%Z ;;
       py_getitem r (col - 1)%Z.

(** the loop of [filter_responses], threading [cleaned] *)
Fixpoint filter_loop (responses cleaned : list string) : list string :=
  match responses with
  | [] => cleaned
  | r :: rs =>
      if contains ":" r && contains "/" r
      then filter_loop rs (cleaned ++ [" "])
      else filter_loop rs (cleaned ++ [r])
  end.

Definition filter_responses (responses : list string) : list string :=
  filter_loop responses [].

(** the loop of [compile_responses] over the questions still to visit,
    threading [responses] and [post_triggered] *)
Fixpoint compile_loop (d : Sheets) (pre_row post_row : Z) (qs : list string)
         (responses : list string) (post_triggered : bool)
  : result (list string) :=
  match qs with
  | [] => Ok responses
  | q :: qs' =>
      post_triggered <-
        (if post_triggered then Ok true
         else idx <- py_index (questions d) q ;; Ok (36 <=? idx)%Z) ;;
      r <- (if post_triggered then compile_post_response d post_row q
            else compile_pre_response d pre_row q) ;;
      compile_loop d pre_row post_row qs' (responses ++ [r]) post_triggered
  end.

Definition compile_responses (d : Sheets) (identifier : string)
  : result (list string) :=
  pre_row <- find_pre_row_by_id d identifier ;;
  post_row <- find_post_row_by_id d identifier ;;
  responses <- compile_loop d pre_row post_row (questions d) [] false ;;
  Ok (filter_responses responses).

(** the [case] arms of the [match r] statement of
    [response_to_number_helper], in source order *)
Definition vocabulary : list (string * Z) :=
  [ ("pgy1", 0)
  ; ("pgy2", 1)
  ; ("pgy3", 2)
  ; ("20-25", 0)
  ; ("26-32", 1)
  ; ("33-40", 2)
  ; ("41+", 3)
  ; ("single/non partnered", 0)
  ; ("married/partnered", 1)
  ; ("man", 0)
  ; ("woman", 1)
  ; ("transgender", 2)
  ; ("non-binary, gender non-conforming, or genderqueer", 3)
  ; ("preferred response not listed", 4)
  ; ("allergy & immunology", 0)
  ; ("cardiology", 1)
  ; ("endocrinology", 2)
  ; ("geriatrics", 3)
  ; ("gi", 4)
  ; ("heme/onc", 5)
  ; ("hospital medicine", 6)
  ; ("infectious disease", 7)
  ; ("nephrology", 8)
  ; ("palliative care", 9)
  ; ("pulm/crit", 10)
  ; ("primary care", 11)
  ; ("rheumatology", 12)
  ; ("i don't plan to practice", 13)
  ; ("undecided", 14)
  ; ("ccu", 0)
  ; ("ed", 1)
  ; ("elective", 2)
  ; ("elmhurst", 3)
  ; ("micu", 4)
  ; ("nights", 5)
  ; ("sinai floors", 6)
  ; ("senior role", 7)
  ; ("va floors", 8)
  ; ("va icu", 9)
  ; ("no", 0)
  ; ("yes", 1)
  ; ("strongly disagree", 0)
  ; ("disagree", 1)
  ; ("neutral", 2)
  ; ("agree", 3)
  ; ("strongly agree", 4)
  ; ("not at all", 0)
  ; ("somewhat true", 1)
  ; ("moderately true", 2)
  ; ("very true", 3)
  ; ("completely true", 4)
  ; ("very little", 1)
  ; ("moderately", 2)
  ; ("a lot", 3)
  ; ("extremely", 4)
  ; ("i feel completely burned out", 0)
  ; ("my symptoms of burnout won't go away. i think about work frustrations a lot.",
     1)
  ; ("i am definitely burning out and have more than one symptom of burnout, e.g. emotional exhaustion and depersonalization.",
     2)
  ; ("i am very stressed and may be suffering some burnout symptoms, such as emotional exhaustion or depersonalization.",
     3)
  ; ("i am under stress, and don't always have as much energy as i did, but i don't feel burned out.",
     4)
  ; ("i enjoy my work. i have no symptoms of burnout.", 5)
  ; ("not of interest to me", 0)
  ; ("too busy with clinical duties", 1)
  ; ("too busy with admin", 2)
  ; ("too busy with other stuff", 3)
  ; ("i like to keep my lunch hour free", 4)
  ; ("n/a--i have attended all of them", 5)
  ; ("narrative medicine faculty from columbia university (current facilitators)",
     0)
  ; ("mount sinai faculty with experience/interest in narrative medicine", 1)
  ; ("mount sinai residents with experience/interest in narrative medicine",
     2)
  ; ("only pgy1's", 0)
  ; ("pgy1's, pgy2's, and pgy3's", 1)
  ; ("only pgy1s", 0)
  ; ("pgy1s, pgy2s, and pgy3s", 1)
  ; ("close reading and discussion", 0)
  ; ("writing exercise and discussion", 1)
  ; ("n/a--have not attended", 2)
  ; ("n/a - did not attend", 5)
  ]%Z.

(** the [match] statement: the first arm whose literal equals [r] *)
Fixpoint match_case (r : string) (arms : list (string * Z)) : option Z :=
  match arms with
  | [] => None
  | (key, n) :: arms' => if String.eqb r key then Some n else match_case r arms'
  end.

Definition response_to_number_helper (d : Sheets) (response : option string)
           (responses : list string) : result code :=
  match response with
  | None => Ok (Str "")
  | Some response =>
      let r := strip (lower response) in
      match match_case r vocabulary with
      | Some n => Ok (Int n)
      | None =>
          if String.eqb r "" || String.eqb r " " then Ok (Str "")
          else if py_in r (map lower responses)
          then idx <- py_index (map lower responses) r ;;
               q <- py_getitem (questions d) idx ;;
               if contains "write one word" (lower q) then Ok (Str r)
               else Ok (Str ERROR)
          else Ok (Str ERROR)
      end
  end.

Definition response_to_number (d : Sheets) (responses : list string)
  : result (list code) :=
  mapM (fun r => response_to_number_helper d (Some r) responses) responses.

Definition count_attendance (d : Sheets) (identifier : string) : Z :=
  let ident := lower identifier in
  len (filter (fun v => String.eqb (lower v) ident) (attendance_values d)).

Definition get_user_numbers (d : Sheets) (identifier : string)
  : result (list code) :=
  responses <- compile_responses d identifier ;;
  nums <- response_to_number d responses ;;
  Ok (Int (count_attendance d identifier) :: nums).

(** ** Identifier seeding and the selection of rows to process *)

(** the loop of [identifier_getter], threading [identities] *)
Fixpoint identifier_loop (vals identities : list string) : list string :=
  match vals with
  | [] => identities
  | v :: vs =>
      let lv := lower v in
      if negb (py_in lv identities)
         && negb (contains "first two letters" lv)
      then identifier_loop vs (identities ++ [lv])
      else identifier_loop vs identities
  end.

Definition identifier_getter (d : Sheets) : list string :=
  identifier_loop (attendance_values d) [].

(** the loop of [filter_names] over [enumerate(names)], threading [out];
    [col_b] is column B of the master sheet *)
Fixpoint filter_names_loop (col_b names : list string) (i : Z)
         (out : list string) : result (list string) :=
  match names with
  | [] => Ok out
  | name :: names' =>
      keep <- (if (i + 4 <? len col_b)%Z
               then c <- py_getitem col_b (i + 4)%Z ;; Ok (is_empty c)
               else Ok false) ;;
      filter_names_loop col_b names' (i + 1)%Z
                        (if keep then out ++ [name] else out)
  end.

(** [filter_names]; the module-level [master_values] it reads is its first
    argument *)
Definition filter_names (master_values : list (list string))
           (names : list string) : result (list string) :=
  col_b <- mapM (fun row => if (1 <? len row)%Z then py_getitem row 1%Z
                            else Ok "") master_values ;;
  filter_names_loop col_b names 0%Z [].

Definition newline : ascii := ascii_of_nat 10.

(** [header.split("\n")[0]]: the text before the first line feed *)
Fixpoint first_line (s : string) : string :=
  match s with
  | EmptyString => EmptyString
  | String c s' =>
      if Ascii.eqb c newline then EmptyString else String c (first_line s')
  end.

(** the loop of [get_questions_from_master], threading [out]; the row
    [master_sheet.row_values(4)] it reads is its first argument *)
Fixpoint questions_loop (header_row out : list string) : list string :=
  match header_row with
  | [] => out
  | header :: hs =>
      let question := first_line header in
      if negb (String.eqb question "Identifier")
         && negb (contains "# of sessions attended" question)
      then questions_loop hs (out ++ [question])
      else questions_loop hs out
  end.

Definition get_questions_from_master (header_row : list string)
  : list string :=
  questions_loop header_row [].

(** ** Notions used in the statements *)

(** the normalized keyword [norm_q] is a substring of the normalized
    header [h] *)
Definition hit (norm_q h : string) : bool := contains norm_q (normalize h).

(** the similarity ratio of the normalized keyword and the normalized
    header *)
Definition score (norm_q h : string) : Q :=
  Difflib.ratio norm_q (normalize h).

(** [k] is the first position of [headers] whose header matches. *)
Definition first_hit (norm_q : string) (headers : list string) (k : nat)
  : Prop :=
  (exists h, nth_error headers k = Some h /\ hit norm_q h = true)
  /\ forall j h', (j < k)%nat -> nth_error headers j = Some h' ->
                  hit norm_q h' = false.

(** [k] is the first position of [headers] whose score is the largest. *)
Definition first_max (norm_q : string) (headers : list string) (k : nat)
           (h : string) : Prop :=
  nth_error headers k = Some h
  /\ (forall h', In h' headers -> (score norm_q h' <= score norm_q h)%Q)
  /\ forall j h', (j < k)%nat -> nth_error headers j = Some h' ->
                  (score norm_q h' < score norm_q h)%Q.

(** what the sanitizer makes of one response *)
Definition filter_response (r : string) : string :=
  if contains ":" r && contains "/" r then " " else r.

(** [k] is the first position of [l] that holds [x]. *)
Definition first_pos (x : string) (l : list string) (k : nat) : Prop :=
  nth_error l k = Some x
  /\ forall j y, (j < k)%nat -> nth_error l j = Some y -> y <> x.

(** every key of the table is already lower-cased and trimmed, and is the
    first arm of the [match] with its text *)
Definition key_ok (e : string * Z) : bool :=
  String.eqb (strip (lower (fst e))) (fst e)
  && match match_case (fst e) vocabulary with
     | Some m => (m =? snd e)%Z
     | None => false
     end.

(** the question at position 36, if there is one, does not occur at an
    earlier position *)
Definition boundary_question_fresh (qs : list string) : Prop :=
  forall j q, (j < 36)%nat -> nth_error qs j = Some q ->
              nth_error qs 36 <> Some q.

(** [k] is the first position of [headers] whose header contains
    [keyword] as it is written. *)
Definition first_containing (keyword : string) (headers : list string)
           (k : nat) : Prop :=
  (exists h, nth_error headers k = Some h /\ contains keyword h = true)
  /\ forall j h', (j < k)%nat -> nth_error headers j = Some h' ->
                  contains keyword h' = false.

(** the cell of [row] in the 1-based column [col], empty when the row is
    too short *)
Definition cell (col : Z) (row : list string) : string :=
  nth (Z.to_nat (col - 1)) row "".

(** row [k] (0-based) is the first row of [values] whose cell in column
    [col] equals [identifier] up to letter case *)
Definition first_row_of (identifier : string) (col : Z)
           (values : list (list string)) (k : nat) : Prop :=
  (exists r, nth_error values k = Some r
             /\ lower (cell col r) = lower identifier)
  /\ forall j r', (j < k)%nat -> nth_error values j = Some r' ->
                  lower (cell col r') <> lower identifier.

(** every row has at least as many cells as there are headers *)
Definition rectangular (headers : list string) (values : list (list string))
  : Prop :=
  forall r, In r values -> (length headers <= length r)%nat.

(** [c] occurs in [s] *)
Fixpoint occurs (c : ascii) (s : string) : bool :=
  match s with
  | EmptyString => false
  | String d s' => Ascii.eqb c d || occurs c s'
  end.

(** the integer codes of the table lie between 0 and 14 *)
Definition code_in_range (e : string * Z) : bool :=
  (0 <=? snd e)%Z && (snd e <=? 14)%Z.

(** no key of the table contains a colon *)
Definition key_without_colon (e : string * Z) : bool :=
  negb (occurs ":" (fst e)).

(** ** Sheets used in the examples *)

Definition free_text_sheets : Sheets :=
  {| attendance_values := []; pre_values := []; post_values := [];
     pre_headers := []; post_headers := [];
     questions := ["Please write one word that describes your week"] |}.

Definition two_answer_sheets : Sheets :=
  {| attendance_values := []; pre_values := []; post_values := [];
     pre_headers := []; post_headers := [];
     questions := ["Describe your week";
                   "Please write one word that describes your week"] |}.

Definition short_row_sheets : Sheets :=
  {| attendance_values := ["ab"];
     pre_values := [["Personal Identifier:"; "Mood today"]; ["ab"]];
     post_values := [["Personal Identifier:"; "Mood today"]; ["ab"]];
     pre_headers := ["Personal Identifier:"; "Mood today"];
     post_headers := ["Personal Identifier:"; "Mood today"];
     questions := ["Mood today"] |}.

Definition unmatched_sheets : Sheets :=
  {| attendance_values := ["zz"];
     pre_values :=
       [["Personal Identifier:"; "Write one word that describes your week";
         "Mood today"];
        ["ab"; "calm"; "Yes"]];
     post_values := [["Personal Identifier:"]; ["zz"]];
     pre_headers :=
       ["Personal Identifier:"; "Write one word that describes your week";
        "Mood today"];
     post_headers := ["Personal Identifier:"];
     questions := ["Write one word that describes your week"; "Mood today"] |}.

Definition items : list string :=
  ["Item 02"; "Item 03"; "Item 04"; "Item 05"; "Item 06"; "Item 07";
   "Item 08"; "Item 09"; "Item 10"; "Item 11"; "Item 12"; "Item 13";
   "Item 14"; "Item 15"; "Item 16"; "Item 17"; "Item 18"; "Item 19";
   "Item 20"; "Item 21"; "Item 22"; "Item 23"; "Item 24"; "Item 25";
   "Item 26"; "Item 27"; "Item 28"; "Item 29"; "Item 30"; "Item 31";
   "Item 32"; "Item 33"; "Item 34"; "Item 35"; "Item 36"].

Definition short_post_row_sheets : Sheets :=
  {| attendance_values := [];
     pre_values := [["Personal Identifier:"; "Mood today"]];
     post_values := [["Personal Identifier:"; "Closing thought"]; ["zz"]];
     pre_headers := ["Personal Identifier:"; "Mood today"];
     post_headers := ["Personal Identifier:"; "Closing thought"];
     questions := ("Mood today" :: items ++ ["Closing thought"])%list |}.

Definition repeated_question_sheets : Sheets :=
  {| attendance_values := ["ab"];
     pre_values := [["Personal Identifier:"; "Mood today"]; ["ab"; "Yes"]];
     post_values := [["Personal Identifier:"; "Mood today"]; ["ab"; "No"]];
     pre_headers := ["Personal Identifier:"; "Mood today"];
     post_headers := ["Personal Identifier:"; "Mood today"];
     questions := ("Mood today" :: items ++ ["Mood today"])%list |}.

Definition paired_sheets : Sheets :=
  {| attendance_values := ["ab"; "AB"];
     pre_values := [["Personal Identifier:"; "Mood today"]; ["ab"; "Yes"]];
     post_values := [["Personal Identifier:"; "Closing thought"];
                     ["Ab"; "No"]];
     pre_headers := ["Personal Identifier:"; "Mood today"];
     post_headers := ["Personal Identifier:"; "Closing thought"];
     questions := ("Mood today" :: items ++ ["Closing thought"])%list |}.

(** the compiled responses of the participant [AB] of [paired_sheets] *)
Definition paired_out : list string :=
  Eval vm_compute in
    match compile_responses paired_sheets "AB" with
    | Ok l => l
    | Raise _ => []
    end.

(** * Properties *)

(** ** The scenarios of the specification *)

Example resolve_personal_identifier :
  find_best_column "personal identifier"
                   ["Timestamp"; "Personal Identifier:"; "Gender"]
                   default_cutoff = 2%Z.
Proof. reflexivity. Qed.

Example resolve_by_similarity :
  find_best_column "Gendr" ["Timestamp"; "Personal Identifier:"; "Gender"]
                   default_cutoff = 3%Z
  /\ find_best_column "Shoe size"
                      ["Timestamp"; "Personal Identifier:"; "Gender"]
                      default_cutoff = (-1)%Z.
Proof. split; vm_compute; reflexivity. Qed.

Example encode_strongly_agree :
  response_to_number_helper free_text_sheets (Some "Strongly Agree") []
  = Ok (Int 4)
  /\ response_to_number_helper free_text_sheets (Some "strongly agree") []
     = Ok (Int 4).
Proof. split; reflexivity. Qed.

Example sanitize_timestamp :
  filter_responses ["3/14/2023 10:00:00"; "Yes"; "a/b"; "10:30"]
  = [" "; "Yes"; "a/b"; "10:30"].
Proof. reflexivity. Qed.

Example encode_none :
  response_to_number_helper free_text_sheets None ["x"] = Ok (Str "").
Proof. reflexivity. Qed.

Example similarity_ratio_values :
  Qeq (Difflib.ratio "abcd" "bcde") (3 # 4)
  /\ Qeq (Difflib.ratio "tide" "diet") (1 # 4)
  /\ Qeq (Difflib.ratio "diet" "tide") (1 # 2)
  /\ Qeq (Difflib.ratio "" "") 1.
Proof. repeat split; vm_compute; reflexivity. Qed.

(** ** Strings *)

Lemma isspace_lower_char (c : ascii) : isspace (lower_char c) = isspace c.
Proof.
  destruct c as [b0 b1 b2 b3 b4 b5 b6 b7].
  destruct b0, b1, b2, b3, b4, b5, b6, b7; reflexivity.
Qed.

Lemma lower_char_idem (c : ascii) : lower_char (lower_char c) = lower_char c.
Proof.
  destruct c as [b0 b1 b2 b3 b4 b5 b6 b7].
  destruct b0, b1, b2, b3, b4, b5, b6, b7; reflexivity.
Qed.

Lemma lower_idem (s : string) : lower (lower s) = lower s.
Proof.
  induction s as [|c s IH]; simpl; [reflexivity|].
  now rewrite lower_char_idem, IH.
Qed.

Lemma lower_app (s t : string) : lower (s ++ t) = (lower s ++ lower t)%string.
Proof.
  induction s as [|c s IH]; simpl; [reflexivity|].
  now rewrite IH.
Qed.

Lemma all_space_lower (s : string) : all_space (lower s) = all_space s.
Proof.
  induction s as [|c s IH]; simpl; [reflexivity|].
  now rewrite isspace_lower_char, IH.
Qed.

Lemma lstrip_all_space (ws : string) : all_space ws = true -> lstrip ws = "".
Proof.
  induction ws as [|c ws IH]; simpl; [reflexivity|].
  intros H. apply andb_true_iff in H as [Hc Hws].
  rewrite Hc. auto.
Qed.

Lemma lstrip_app_space (ws s : string) :
  all_space ws = true -> lstrip (ws ++ s) = lstrip s.
Proof.
  induction ws as [|c ws IH]; simpl; [reflexivity|].
  intros H. apply andb_true_iff in H as [Hc Hws].
  rewrite Hc. auto.
Qed.

Lemma rstrip_all_space (ws : string) : all_space ws = true -> rstrip ws = "".
Proof.
  induction ws as [|c ws IH]; simpl; [reflexivity|].
  intros H. apply andb_true_iff in H as [Hc Hws].
  rewrite (IH Hws), Hc. reflexivity.
Qed.

Lemma rstrip_app_space (s ws : string) :
  all_space ws = true -> rstrip (s ++ ws) = rstrip s.
Proof.
  intros Hws. induction s as [|c s IH]; simpl.
  - now apply rstrip_all_space.
  - now rewrite IH.
Qed.

Lemma strip_app_space_r (t ws : string) :
  all_space ws = true -> strip (t ++ ws) = strip t.
Proof.
  intros Hws. unfold strip.
  induction t as [|c t IH]; simpl.
  - rewrite (lstrip_all_space ws Hws). reflexivity.
  - destruct (isspace c); [exact IH|].
    change (String c (t ++ ws)) with (String c t ++ ws)%string.
    now apply rstrip_app_space.
Qed.

(** Surrounding whitespace does not change [s.strip()]. *)
Lemma strip_pad (ws1 t ws2 : string) :
  all_space ws1 = true -> all_space ws2 = true ->
  strip (ws1 ++ t ++ ws2) = strip t.
Proof.
  intros H1 H2.
  transitivity (strip (t ++ ws2)).
  - unfold strip. now rewrite lstrip_app_space.
  - now apply strip_app_space_r.
Qed.

(** [s.strip()] is never a lone whitespace character. *)
Lemma rstrip_single (s : string) (c : ascii) :
  rstrip s = String c "" -> isspace c = false.
Proof.
  destruct s as [|c0 s]; simpl; [discriminate|].
  destruct (rstrip s) eqn:E; simpl.
  - destruct (isspace c0) eqn:Hc; [discriminate|].
    intros H. injection H as <-. exact Hc.
  - intros H. discriminate.
Qed.

Lemma strip_not_space (s : string) : String.eqb (strip s) " " = false.
Proof.
  destruct (String.eqb (strip s) " ") eqn:E; [|reflexivity].
  apply String.eqb_eq in E. apply rstrip_single in E. discriminate.
Qed.

Lemma starts_with_lower (p s : string) :
  starts_with p s = true -> starts_with (lower p) (lower s) = true.
Proof.
  revert s. induction p as [|c p IH]; intros s; simpl; [reflexivity|].
  destruct s as [|c' s]; [discriminate|]. simpl.
  intros H. apply andb_true_iff in H as [Hc Hp].
  apply Ascii.eqb_eq in Hc. subst c'.
  rewrite Ascii.eqb_refl. simpl. now apply IH.
Qed.

(** A substring stays a substring when both strings are lower-cased. *)
Lemma contains_lower (p s : string) :
  contains p s = true -> contains (lower p) (lower s) = true.
Proof.
  induction s as [|c s IH].
  - simpl. destruct p; [reflexivity|discriminate].
  - cbn [contains lower]. destruct (starts_with p (String c s)) eqn:E.
    + intros _. apply starts_with_lower in E. cbn [lower] in E. now rewrite E.
    + intros H. rewrite (IH H).
      now destruct (starts_with (lower p) (String (lower_char c) (lower s))).
Qed.

(** ** The sanitizer *)

Lemma filter_loop_map (responses cleaned : list string) :
  filter_loop responses cleaned
  = (cleaned ++ map filter_response responses)%list.
Proof.
  revert cleaned. induction responses as [|r rs IH]; intros cleaned; simpl.
  - now rewrite app_nil_r.
  - unfold filter_response at 1.
    destruct (contains ":" r && contains "/" r);
      rewrite IH, <- app_assoc; reflexivity.
Qed.

Lemma filter_responses_map (responses : list string) :
  filter_responses responses = map filter_response responses.
Proof.
  unfold filter_responses. now rewrite filter_loop_map.
Qed.

Lemma filter_response_idem (r : string) :
  filter_response (filter_response r) = filter_response r.
Proof.
  unfold filter_response.
  destruct (contains ":" r && contains "/" r) eqn:E.
  - reflexivity.
  - now rewrite E.
Qed.

(** C9: [filter_responses] keeps the length of its argument, acts on each
    position separately (position [i] of the result is the sanitized
    position [i] of the argument), and sanitizing twice is sanitizing
    once. *)
Theorem filter_responses_length_order_idempotent (xs : list string) :
  length (filter_responses xs) = length xs
  /\ (forall i, nth_error (filter_responses xs) i
                = option_map filter_response (nth_error xs i))
  /\ filter_responses (filter_responses xs) = filter_responses xs.
Proof.
  rewrite !filter_responses_map. repeat split.
  - apply length_map.
  - intros i. apply nth_error_map.
  - rewrite map_map. apply map_ext. intros r. apply filter_response_idem.
Qed.

(** ** The encoder on a sanitized timestamp *)

Lemma mapM_nth {A B : Type} (f : A -> result B) (l : list A) (ys : list B)
      (i : nat) (x : A) :
  mapM f l = Ok ys -> nth_error l i = Some x ->
  exists y, nth_error ys i = Some y /\ f x = Ok y.
Proof.
  revert ys i. induction l as [|a l IH]; intros ys i Hm Hx.
  - destruct i; discriminate.
  - simpl in Hm. destruct (f a) as [b|e] eqn:Hb; [|discriminate].
    cbn [bind] in Hm. destruct (mapM f l) as [bs|e]; [|discriminate].
    cbn [bind] in Hm. injection Hm as <-.
    destruct i as [|i]; simpl in Hx.
    + injection Hx as <-. exists b. now split.
    + destruct (IH bs i eq_refl Hx) as (y & Hy & Hf).
      exists y. now split.
Qed.

(** C10: a response containing both [:] and [/] is rewritten by the
    sanitizer to a single space, and the encoder maps a single space to
    the empty string whatever the sibling responses are; in the encoded
    sequence its position holds the empty string, never [ERROR]. *)
Theorem timestamp_response_encodes_blank
        (d : Sheets) (xs : list string) (i : nat) (r : string) :
  nth_error xs i = Some r ->
  contains ":" r = true -> contains "/" r = true ->
  nth_error (filter_responses xs) i = Some " "
  /\ (forall rs, response_to_number_helper d (Some " ") rs = Ok (Str ""))
  /\ forall codes,
      response_to_number d (filter_responses xs) = Ok codes ->
      nth_error codes i = Some (Str "").
Proof.
  intros Hr Hc Hs.
  assert (Hi : nth_error (filter_responses xs) i = Some " ").
  { rewrite filter_responses_map, nth_error_map, Hr. simpl.
    unfold filter_response. now rewrite Hc, Hs. }
  split; [exact Hi|]. split; [reflexivity|].
  intros codes Hcodes. unfold response_to_number in Hcodes.
  destruct (mapM_nth _ _ _ i " " Hcodes Hi) as (y & Hy & Hf).
  cbv beta in Hf.
  change (Ok (Str "") = Ok y) in Hf. injection Hf as <-. exact Hy.
Qed.

Lemma timestamp_response_encodes_blank_witness :
  nth_error (filter_responses ["Yes"; "3/14/2023 10:00:00"]) 1 = Some " "
  /\ (forall rs,
         response_to_number_helper two_answer_sheets (Some " ") rs
         = Ok (Str ""))
  /\ forall codes,
      response_to_number two_answer_sheets
                         (filter_responses ["Yes"; "3/14/2023 10:00:00"])
      = Ok codes ->
      nth_error codes 1 = Some (Str "").
Proof.
  apply (timestamp_response_encodes_blank
           two_answer_sheets ["Yes"; "3/14/2023 10:00:00"] 1
           "3/14/2023 10:00:00");
    reflexivity.
Defined.

(** ** The column resolver *)

Lemma substring_pass_spec
      (norm_q : string) (headers : list string) (i : Z) :
  match substring_pass norm_q headers i with
  | Some col =>
      exists k, col = (i + Z.of_nat k + 1)%Z /\ first_hit norm_q headers k
  | None => forall h, In h headers -> hit norm_q h = false
  end.
Proof.
  revert i. induction headers as [|h hs IH]; intros i; simpl.
  - intros h [].
  - fold (hit norm_q h). destruct (hit norm_q h) eqn:Hh.
    + exists 0%nat. split; [simpl; lia|]. split.
      * exists h. now split.
      * intros j h' Hj. lia.
    + specialize (IH (i + 1)%Z).
      destruct (substring_pass norm_q hs (i + 1)%Z) as [col|].
      * destruct IH as (k & -> & (hk & Hk) & Hfirst).
        exists (S k). split; [lia|]. split; [exact (ex_intro _ hk Hk)|].
        intros [|j] h' Hj Hn; simpl in Hn.
        -- now injection Hn as <-.
        -- apply (Hfirst j); [lia|exact Hn].
      * intros h' [<-|Hin]; auto.
Qed.

Lemma Qlt_bool_iff (x y : Q) : Qlt_bool x y = true <-> (x < y)%Q.
Proof.
  unfold Qlt_bool. rewrite negb_true_iff. split.
  - intros H. apply Qnot_le_lt. intros Hle.
    apply Qle_bool_iff in Hle. congruence.
  - intros H. destruct (Qle_bool y x) eqn:E; [|reflexivity].
    apply Qle_bool_iff in E. exfalso. exact (Qlt_not_le _ _ H E).
Qed.

Lemma Qlt_bool_false (x y : Q) : Qlt_bool x y = false -> (y <= x)%Q.
Proof.
  unfold Qlt_bool. rewrite negb_false_iff. apply Qle_bool_iff.
Qed.

(** The second pass either keeps the state it started from, every score
    being at most the starting best score, or ends on the first position
    whose score is the largest and above the starting best score. *)
Lemma fuzzy_pass_spec
      (norm_q : string) (headers : list string) (i : Z) (best : Q * Z) :
  (fuzzy_pass norm_q headers i best = best
   /\ forall h, In h headers -> (score norm_q h <= fst best)%Q)
  \/ exists k h,
      fuzzy_pass norm_q headers i best = (score norm_q h, (i + Z.of_nat k)%Z)
      /\ first_max norm_q headers k h
      /\ (fst best < score norm_q h)%Q.
Proof.
  revert i best. induction headers as [|h hs IH]; intros i best; simpl.
  - left. split; [reflexivity|]. intros h [].
  - fold (score norm_q h). destruct (Qlt_bool (fst best) (score norm_q h)) eqn:E.
    + apply Qlt_bool_iff in E. right.
      destruct (IH (i + 1)%Z (score norm_q h, i)) as [[Heq Hle]|(k & h2 & Heq & Hmax & Hlt)].
      * exists 0%nat, h. rewrite Heq, Z.add_0_r. split; [reflexivity|].
        split; [|exact E]. split; [reflexivity|]. split.
        -- intros h' [<-|Hin]; [apply Qle_refl|exact (Hle _ Hin)].
        -- intros j h' Hj. lia.
      * simpl in Hlt. destruct Hmax as (Hn & Hall & Hearlier).
        exists (S k), h2. rewrite Heq. split; [f_equal; lia|].
        split; [|exact (Qlt_trans _ _ _ E Hlt)]. split; [exact Hn|]. split.
        -- intros h' [<-|Hin]; [now apply Qlt_le_weak|exact (Hall _ Hin)].
        -- intros [|j] h' Hj Hj'; simpl in Hj'.
           ++ now injection Hj' as <-.
           ++ apply (Hearlier j); [lia|exact Hj'].
    + apply Qlt_bool_false in E.
      destruct (IH (i + 1)%Z best) as [[Heq Hle]|(k & h2 & Heq & Hmax & Hlt)].
      * left. split; [exact Heq|].
        intros h' [<-|Hin]; [exact E|exact (Hle _ Hin)].
      * right. destruct Hmax as (Hn & Hall & Hearlier).
        exists (S k), h2. rewrite Heq. split; [f_equal; lia|].
        split; [|exact Hlt]. split; [exact Hn|]. split.
        -- intros h' [<-|Hin]; [|exact (Hall _ Hin)].
           apply Qlt_le_weak. exact (Qle_lt_trans _ _ _ E Hlt).
        -- intros [|j] h' Hj Hj'; simpl in Hj'.
           ++ injection Hj' as <-. exact (Qle_lt_trans _ _ _ E Hlt).
           ++ apply (Hearlier j); [lia|exact Hj'].
Qed.


(** C5: when the normalized keyword is a substring of some normalized
    header, [find_best_column] returns the 1-based position of the first
    such header, for every cutoff. *)
Theorem find_best_column_first_substring
        (keyword : string) (headers : list string) (cutoff : Q) :
  (exists h, In h headers /\ hit (normalize keyword) h = true) ->
  exists k, find_best_column keyword headers cutoff = (Z.of_nat k + 1)%Z
            /\ first_hit (normalize keyword) headers k.
Proof.
  intros (h & Hin & Hh). unfold find_best_column.
  pose proof (substring_pass_spec (normalize keyword) headers 0) as Hspec.
  destruct (substring_pass (normalize keyword) headers 0) as [col|].
  - destruct Hspec as (k & -> & Hk). exists k. split; [lia|exact Hk].
  - rewrite (Hspec h Hin) in Hh. discriminate.
Qed.

Lemma find_best_column_first_substring_witness :
  exists k,
    find_best_column "personal identifier"
                     ["Timestamp"; "Personal Identifier:"; "Gender"]
                     default_cutoff = (Z.of_nat k + 1)%Z
    /\ first_hit (normalize "personal identifier")
                 ["Timestamp"; "Personal Identifier:"; "Gender"] k.
Proof.
  apply find_best_column_first_substring.
  exists "Personal Identifier:". split; [simpl; auto|reflexivity].
Defined.

(** X19: with a positive cutoff and no substring match,
    [find_best_column] returns -1 exactly when every score is below the
    cutoff, and otherwise the 1-based position of the first header with
    the largest score. *)
Lemma find_best_column_fuzzy
      (keyword : string) (headers : list string) (cutoff : Q) :
  (0 < cutoff)%Q ->
  (forall h, In h headers -> hit (normalize keyword) h = false) ->
  (find_best_column keyword headers cutoff = (-1)%Z
   <-> forall h, In h headers -> (score (normalize keyword) h < cutoff)%Q)
  /\ forall k h, first_max (normalize keyword) headers k h ->
                 (cutoff <= score (normalize keyword) h)%Q ->
                 find_best_column keyword headers cutoff = (Z.of_nat k + 1)%Z.
Proof.
  intros Hpos Hno. unfold find_best_column.
  pose proof (substring_pass_spec (normalize keyword) headers 0) as Hspec.
  destruct (substring_pass (normalize keyword) headers 0) as [col|].
  { destruct Hspec as (k & _ & (h & Hn & Hh) & _).
    rewrite (Hno h (nth_error_In _ _ Hn)) in Hh. discriminate. }
  clear Hspec.
  destruct (fuzzy_pass_spec (normalize keyword) headers 0 (0%Q, (-1)%Z))
    as [[-> Hle]|(k & h & -> & Hmax & Hlt)]; simpl in *.
  - assert (Hc : Qle_bool cutoff 0 = false).
    { destruct (Qle_bool cutoff 0) eqn:E; [|reflexivity].
      apply Qle_bool_iff in E. exfalso. exact (Qlt_not_le _ _ Hpos E). }
    rewrite Hc. split.
    + split; [|reflexivity]. intros _ h Hin.
      exact (Qle_lt_trans _ _ _ (Hle h Hin) Hpos).
    + intros k h (Hn & _) Hcut. exfalso.
      apply (Qlt_not_le _ _ Hpos).
      exact (Qle_trans _ _ _ Hcut (Hle h (nth_error_In _ _ Hn))).
  - destruct Hmax as (Hn & Hall & Hearlier).
    destruct (Qle_bool cutoff (score (normalize keyword) h)) eqn:E.
    + apply Qle_bool_iff in E. split.
      * split; [lia|]. intros Hbelow. exfalso.
        exact (Qlt_not_le _ _ (Hbelow h (nth_error_In _ _ Hn)) E).
      * intros k' h' (Hn' & Hall' & Hearlier') _.
        destruct (Nat.lt_trichotomy k k') as [Hk|[->|Hk]].
        -- exfalso. apply (Qlt_not_le _ _ (Hearlier' k h Hk Hn)).
           exact (Hall h' (nth_error_In _ _ Hn')).
        -- lia.
        -- exfalso. apply (Qlt_not_le _ _ (Hearlier k' h' Hk Hn')).
           exact (Hall' h (nth_error_In _ _ Hn)).
    + assert (Hbelow : (score (normalize keyword) h < cutoff)%Q).
      { apply Qnot_le_lt. intros Hle. apply Qle_bool_iff in Hle. congruence. }
      split.
      * split; [|reflexivity]. intros _ h' Hin.
        exact (Qle_lt_trans _ _ _ (Hall h' Hin) Hbelow).
      * intros k' h' (Hn' & _) Hcut. exfalso.
        apply (Qlt_not_le _ _ Hbelow).
        exact (Qle_trans _ _ _ Hcut (Hall h' (nth_error_In _ _ Hn'))).
Qed.

Example find_best_column_fuzzy_example :
  find_best_column "abc" ["xyz"; "abd"; "abe"] question_cutoff = 2%Z.
Proof.
  apply (proj2 (find_best_column_fuzzy "abc" ["xyz"; "abd"; "abe"]
                                       question_cutoff eq_refl
                                       ltac:(intros h [<-|[<-|[<-|[]]]];
                                             reflexivity))
               1%nat "abd").
  - split; [reflexivity|]. split.
    + intros h [<-|[<-|[<-|[]]]]; vm_compute; discriminate.
    + intros [|[|j]] h Hj Hh; [|lia|lia].
      injection Hh as <-. reflexivity.
  - vm_compute. discriminate.
Defined.

(** C6: on the keyword [abc], the single header [xyz] and cutoff [0.0]
    there is no substring match and the largest score, 0.0, is not below
    the cutoff, yet [find_best_column] returns 0: neither -1 nor the
    position 1 of the first header with the largest score. *)
Theorem find_best_column_zero_cutoff :
  hit (normalize "abc") "xyz" = false
  /\ first_max (normalize "abc") ["xyz"] 0 "xyz"
  /\ (0 <= score (normalize "abc") "xyz")%Q
  /\ find_best_column "abc" ["xyz"] 0 = 0%Z.
Proof.
  split; [reflexivity|]. split; [|split; [|reflexivity]].
  - split; [reflexivity|]. split.
    + intros h' [<-|[]]. apply Qle_refl.
    + intros j h' Hj. lia.
  - vm_compute. discriminate.
Qed.

(** ** List membership and first position *)

Lemma index_from_first (x : string) (l : list string) (i : Z) (k : nat) :
  first_pos x l k ->
  py_in x l = true /\ index_from x l i = Ok (i + Z.of_nat k)%Z.
Proof.
  revert i k. induction l as [|y l IH]; intros i k [Hn Hfirst].
  - destruct k; discriminate.
  - destruct k as [|k]; simpl in Hn.
    + injection Hn as ->. unfold py_in. simpl.
      rewrite String.eqb_refl. split; [reflexivity|f_equal; lia].
    + assert (Hy : y <> x) by (apply (Hfirst 0%nat); [lia|reflexivity]).
      destruct (IH (i + 1)%Z k) as [Hin Hidx].
      { split; [exact Hn|]. intros j z Hj Hz. apply (Hfirst (S j)); [lia|exact Hz]. }
      unfold py_in in *. simpl.
      apply String.eqb_neq in Hy. rewrite Hy.
      rewrite String.eqb_sym, Hy. simpl.
      split; [exact Hin|]. rewrite Hidx. f_equal. lia.
Qed.

Lemma py_in_first (x : string) (l : list string) :
  py_in x l = true -> exists k, first_pos x l k.
Proof.
  unfold py_in. induction l as [|y l IH]; simpl; [discriminate|].
  destruct (String.eqb x y) eqn:E.
  - intros _. apply String.eqb_eq in E. subst y.
    exists 0%nat. split; [reflexivity|]. intros j y Hj. lia.
  - intros H. destruct (IH H) as (k & Hn & Hfirst).
    exists (S k). split; [exact Hn|].
    intros [|j] z Hj Hz; simpl in Hz.
    + injection Hz as <-. apply String.eqb_neq in E. congruence.
    + apply (Hfirst j); [lia|exact Hz].
Qed.

Lemma py_getitem_nth {A : Type} (l : list A) (k : nat) (x : A) :
  nth_error l k = Some x -> py_getitem l (Z.of_nat k) = Ok x.
Proof.
  intros H. unfold py_getitem.
  assert (E : (Z.of_nat k <? 0)%Z = false) by (apply Z.ltb_ge; lia).
  rewrite !E, Nat2Z.id, H. reflexivity.
Qed.

Lemma py_getitem_Z {A : Type} (l : list A) (i : Z) (x : A) :
  (0 <= i)%Z -> nth_error l (Z.to_nat i) = Some x -> py_getitem l i = Ok x.
Proof.
  intros Hi H. rewrite <- (Z2Nat.id i Hi). now apply py_getitem_nth.
Qed.

(** ** The encoder *)

Lemma response_to_number_helper_fallback
      (d : Sheets) (response : string) (rs : list string) :
  match_case (strip (lower response)) vocabulary = None ->
  strip (lower response) <> "" ->
  response_to_number_helper d (Some response) rs
  = if py_in (strip (lower response)) (map lower rs)
    then idx <- py_index (map lower rs) (strip (lower response)) ;;
         q <- py_getitem (questions d) idx ;;
         if contains "write one word" (lower q)
         then Ok (Str (strip (lower response)))
         else Ok (Str ERROR)
    else Ok (Str ERROR).
Proof.
  intros Hv Hne. unfold response_to_number_helper. rewrite Hv.
  apply String.eqb_neq in Hne. rewrite Hne, strip_not_space. reflexivity.
Qed.

(** C4, as stated, fails: the answer [Resilience] to a "write one word"
    question is encoded as the string [resilience], which is neither an
    integer, nor the empty string, nor [ERROR]; and with more sibling
    responses than questions the lookup of the question raises. *)
Lemma encoder_result_free_text :
  (~ exists c,
        response_to_number_helper free_text_sheets (Some "Resilience")
                                  ["Resilience"] = Ok c
        /\ ((exists n, c = Int n) \/ c = Str "" \/ c = Str ERROR))
  /\ response_to_number_helper free_text_sheets (Some "calm")
                               ["tired"; "calm"] = Raise IndexError.
Proof.
  split; [|reflexivity].
  intros (c & Hc & Hcases). vm_compute in Hc. injection Hc as <-.
  destruct Hcases as [[n Hn]|[H|H]]; discriminate.
Qed.

(** C4, amended: when there are no more sibling responses than questions,
    the encoder returns without raising, and its result is an integer, the
    empty string, [ERROR], or the lower-cased and trimmed response itself. *)
Theorem response_to_number_helper_total
        (d : Sheets) (response : string) (rs : list string) :
  (length rs <= length (questions d))%nat ->
  exists c,
    response_to_number_helper d (Some response) rs = Ok c
    /\ ((exists n, c = Int n) \/ c = Str "" \/ c = Str ERROR
        \/ c = Str (strip (lower response))).
Proof.
  intros Hlen. unfold response_to_number_helper.
  destruct (match_case (strip (lower response)) vocabulary) as [n|].
  { exists (Int n). split; [reflexivity|]. left. now exists n. }
  destruct (String.eqb (strip (lower response)) ""
            || String.eqb (strip (lower response)) " ").
  { exists (Str ""). split; [reflexivity|]. right. now left. }
  destruct (py_in (strip (lower response)) (map lower rs)) eqn:Hin.
  2:{ exists (Str ERROR). split; [reflexivity|]. right. right. now left. }
  destruct (py_in_first _ _ Hin) as (k & Hk).
  destruct (index_from_first _ _ 0%Z k Hk) as [_ Hidx].
  unfold py_index. rewrite Hidx. cbn [bind Z.add].
  destruct Hk as [Hn _].
  assert (Hk : (k < length (questions d))%nat).
  { apply (Nat.lt_le_trans _ (length rs)); [|exact Hlen].
    rewrite <- (length_map lower). apply nth_error_Some. congruence. }
  destruct (nth_error (questions d) k) as [q|] eqn:Hq.
  2:{ apply nth_error_None in Hq. lia. }
  rewrite (py_getitem_nth _ _ _ Hq). cbn [bind].
  destruct (contains "write one word" (lower q)).
  - exists (Str (strip (lower response))). split; [reflexivity|]. now repeat right.
  - exists (Str ERROR). split; [reflexivity|]. right. right. now left.
Qed.

Lemma response_to_number_helper_total_witness :
  exists c,
    response_to_number_helper free_text_sheets (Some " Resilience ")
                              ["resilience"] = Ok c
    /\ ((exists n, c = Int n) \/ c = Str "" \/ c = Str ERROR
        \/ c = Str (strip (lower " Resilience "))).
Proof.
  apply response_to_number_helper_total. simpl. lia.
Defined.

(** A second response holds the same text and its question contains
    "write one word", but the first response holds it too, under another
    question: the condition on some position holds and the encoder still
    answers [ERROR]. *)
Lemma fallback_looks_at_first_position_only :
  ~ (match_case (strip (lower "resilience")) vocabulary = None ->
     strip (lower "resilience") <> "" ->
     (exists i x q,
         nth_error ["resilience"; "resilience"] i = Some x
         /\ lower x = strip (lower "resilience")
         /\ nth_error (questions two_answer_sheets) i = Some q
         /\ contains "write one word" q = true) ->
     response_to_number_helper two_answer_sheets (Some "resilience")
                               ["resilience"; "resilience"]
     = Ok (Str (strip (lower "resilience")))).
Proof.
  intros H.
  assert (E : response_to_number_helper two_answer_sheets (Some "resilience")
                                        ["resilience"; "resilience"]
              = Ok (Str ERROR)) by reflexivity.
  rewrite E in H.
  enough (Hfalse : Ok (Str ERROR) = Ok (Str (strip (lower "resilience"))))
    by discriminate.
  apply H.
  - reflexivity.
  - discriminate.
  - exists 1%nat, "resilience",
           "Please write one word that describes your week".
    repeat split; reflexivity.
Qed.

Lemma open_vocabulary_fallback_first
      (d : Sheets) (response : string) (rs : list string)
      (i : nat) (q : string) :
  match_case (strip (lower response)) vocabulary = None ->
  strip (lower response) <> "" ->
  first_pos (strip (lower response)) (map lower rs) i ->
  nth_error (questions d) i = Some q ->
  contains "write one word" (lower q) = true ->
  response_to_number_helper d (Some response) rs
  = Ok (Str (strip (lower response))).
Proof.
  intros Hv Hne Hfirst Hq Hphrase.
  rewrite (response_to_number_helper_fallback d response rs Hv Hne).
  destruct (index_from_first _ _ 0%Z i Hfirst) as [Hin Hidx].
  rewrite Hin. unfold py_index. rewrite Hidx. cbn [bind Z.add].
  rewrite (py_getitem_nth _ _ _ Hq). cbn [bind].
  now rewrite Hphrase.
Qed.

(** What the lookup does reach: when the normalized answer matches no
    vocabulary entry and is not empty, and the first response position
    that holds the same text in any letter case belongs to a question
    containing "write one word", the encoder returns the normalized
    answer.  The phrase is looked for in the lower-cased question, where a
    question containing it literally has it too. *)
Theorem open_vocabulary_fallback :
  (forall d response rs i q,
      match_case (strip (lower response)) vocabulary = None ->
      strip (lower response) <> "" ->
      first_pos (strip (lower response)) (map lower rs) i ->
      nth_error (questions d) i = Some q ->
      contains "write one word" q = true
      \/ contains "write one word" (lower q) = true ->
      response_to_number_helper d (Some response) rs
      = Ok (Str (strip (lower response))))
  /\ (forall d rs i q,
         first_pos "resilience" (map lower rs) i ->
         nth_error (questions d) i = Some q ->
         contains "write one word" q = true
         \/ contains "write one word" (lower q) = true ->
         response_to_number_helper d (Some "resilience") rs
         = Ok (Str "resilience")).
Proof.
  assert (Hphrase : forall q,
             contains "write one word" q = true
             \/ contains "write one word" (lower q) = true ->
             contains "write one word" (lower q) = true).
  { intros q [H|H]; [|exact H].
    exact (contains_lower "write one word" q H). }
  split.
  - intros d response rs i q Hv Hne Hfirst Hq Hq'.
    apply (open_vocabulary_fallback_first d response rs i q); auto.
  - intros d rs i q Hfirst Hq Hq'.
    apply (open_vocabulary_fallback_first d "resilience" rs i q); auto.
    discriminate.
Qed.

Lemma open_vocabulary_fallback_witness :
  response_to_number_helper two_answer_sheets (Some "resilience")
                            ["tired"; "Resilience"]
  = Ok (Str "resilience").
Proof.
  apply (proj2 open_vocabulary_fallback two_answer_sheets
               ["tired"; "Resilience"] 1
               "Please write one word that describes your week").
  - split; [reflexivity|].
    intros [|[|j]] y Hj Hy; [|lia|lia].
    injection Hy as <-. discriminate.
  - reflexivity.
  - left. reflexivity.
Defined.

(** C7: the participant answered [resilience] both to "Describe your
    week" and to the "write one word" question.  The answer at position 1
    is the free-text answer the encoder is meant to return as text, but
    [index] finds the same text at position 0, whose question does not
    contain the phrase, and both answers are encoded as [ERROR]. *)
Theorem repeated_answer_encodes_error :
  nth_error (questions two_answer_sheets) 1
  = Some "Please write one word that describes your week"
  /\ contains "write one word"
              (lower "Please write one word that describes your week") = true
  /\ nth_error ["resilience"; "resilience"] 1 = Some "resilience"
  /\ match_case (strip (lower "resilience")) vocabulary = None
  /\ py_index (map lower ["resilience"; "resilience"])
              (strip (lower "resilience")) = Ok 0%Z
  /\ response_to_number_helper two_answer_sheets (Some "resilience")
                               ["resilience"; "resilience"]
     = Ok (Str ERROR)
  /\ response_to_number two_answer_sheets ["resilience"; "resilience"]
     = Ok [Str ERROR; Str ERROR].
Proof.
  repeat split; reflexivity.
Qed.

(** The encoder reads its first argument only through
    [response.lower().strip()]. *)
Lemma response_to_number_helper_normal_form
      (d : Sheets) (s1 s2 : string) (rs : list string) :
  strip (lower s1) = strip (lower s2) ->
  response_to_number_helper d (Some s1) rs
  = response_to_number_helper d (Some s2) rs.
Proof.
  intros H. unfold response_to_number_helper. now rewrite H.
Qed.

Lemma strip_lower_pad (ws1 t ws2 : string) :
  all_space ws1 = true -> all_space ws2 = true ->
  strip (lower (ws1 ++ t ++ ws2)) = strip (lower t).
Proof.
  intros H1 H2. rewrite !lower_app.
  apply strip_pad; now rewrite all_space_lower.
Qed.

Lemma vocabulary_keys_ok : forallb key_ok vocabulary = true.
Proof. vm_compute. reflexivity. Qed.

Lemma vocabulary_entry (v : string) (n : Z) :
  In (v, n) vocabulary ->
  strip (lower v) = v /\ match_case v vocabulary = Some n.
Proof.
  intros Hin.
  pose proof (proj1 (forallb_forall key_ok vocabulary) vocabulary_keys_ok
                    (v, n) Hin) as H.
  unfold key_ok in H. cbn [fst snd] in H.
  apply andb_true_iff in H as [H1 H2].
  apply String.eqb_eq in H1. split; [exact H1|].
  destruct (match_case v vocabulary) as [m|]; [|discriminate].
  apply Z.eqb_eq in H2. now subst m.
Qed.

(** C8, as stated, fails: a second space added inside the vocabulary
    entry [strongly agree] changes its code from 4 to [ERROR]; only
    whitespace at the ends is removed. *)
Lemma interior_whitespace_changes_code :
  In ("strongly agree", 4%Z) vocabulary
  /\ response_to_number_helper free_text_sheets (Some "strongly agree") []
     = Ok (Int 4)
  /\ response_to_number_helper free_text_sheets (Some "strongly  agree") []
     = Ok (Str ERROR)
  /\ response_to_number_helper free_text_sheets (Some "strongly  agree") []
     <> response_to_number_helper free_text_sheets (Some "strongly agree") [].
Proof.
  split; [|split; [reflexivity|split; [reflexivity|discriminate]]].
  unfold vocabulary. repeat (try (left; reflexivity); right).
Qed.

(** C8, amended: [encode("  Yes ")] and [encode("yes")] are both 1 for
    every sibling list, and for every vocabulary entry, any answer that is
    the entry's text with the case of its letters changed and whitespace
    added before or after it gets the entry's code. *)
Theorem vocabulary_lookup_case_whitespace_insensitive :
  (forall d rs,
      response_to_number_helper d (Some "  Yes ") rs = Ok (Int 1)
      /\ response_to_number_helper d (Some "yes") rs = Ok (Int 1))
  /\ forall d rs v n ws1 t ws2,
      In (v, n) vocabulary ->
      all_space ws1 = true -> all_space ws2 = true ->
      lower t = v ->
      response_to_number_helper d (Some (ws1 ++ t ++ ws2)) rs = Ok (Int n).
Proof.
  split.
  - intros d rs. split; reflexivity.
  - intros d rs v n ws1 t ws2 Hin H1 H2 Ht.
    destruct (vocabulary_entry v n Hin) as [Hnorm Hcase].
    assert (Hl : lower v = v) by (rewrite <- Ht; apply lower_idem).
    rewrite Hl in Hnorm.
    unfold response_to_number_helper.
    now rewrite (strip_lower_pad ws1 t ws2 H1 H2), Ht, Hnorm, Hcase.
Qed.

Lemma vocabulary_lookup_case_whitespace_insensitive_witness :
  response_to_number_helper free_text_sheets
                            (Some ("  " ++ "Strongly AGREE" ++ " "))
                            ["x"; "y"]
  = Ok (Int 4).
Proof.
  apply (proj2 vocabulary_lookup_case_whitespace_insensitive
               free_text_sheets ["x"; "y"] "strongly agree" 4%Z
               "  " "Strongly AGREE" " ").
  - unfold vocabulary. repeat (try (left; reflexivity); right).
  - reflexivity.
  - reflexivity.
  - reflexivity.
Defined.

(** ** Reading a cell of a survey row *)

(** The row lookup guards its cell access: it never raises. *)
Lemma column_values_ok (col : Z) (values : list (list string)) :
  (1 <= col)%Z -> exists vals, column_values col values = Ok vals.
Proof.
  intros Hcol. unfold column_values.
  induction values as [|row rows [vals IH]]; simpl.
  - now exists [].
  - destruct (col <=? len row)%Z eqn:E.
    + apply Z.leb_le in E. unfold len in E.
      destruct (nth_error row (Z.to_nat (col - 1))) as [x|] eqn:Hx.
      * rewrite (py_getitem_Z row (col - 1) x); [|lia|exact Hx].
        cbn [bind]. rewrite IH.
        now exists (x :: vals).
      * apply nth_error_None in Hx. lia.
    + cbn [bind]. rewrite IH. now exists ("" :: vals).
Qed.

Lemma find_column_range (keyword : string) (headers : list string) (i : Z) :
  find_column keyword headers i = (-1)%Z
  \/ (i + 1 <= find_column keyword headers i)%Z.
Proof.
  revert i. induction headers as [|h hs IH]; intros i; simpl; [now left|].
  destruct (contains keyword h); [right; lia|].
  destruct (IH (i + 1)%Z) as [H|H]; [now left|right; lia].
Qed.

Lemma find_pre_row_by_id_ok (d : Sheets) (identifier : string) :
  exists row, find_pre_row_by_id d identifier = Ok row.
Proof.
  unfold find_pre_row_by_id, find_pre_column.
  destruct (find_column_range "Personal Identifier:" (pre_headers d) 0)
    as [->|Hge].
  - now exists (-1)%Z.
  - destruct (_ =? -1)%Z; [now exists (-1)%Z|].
    destruct (column_values_ok _ (pre_values d) Hge) as [vals ->].
    cbn [bind]. eauto.
Qed.

Lemma find_post_row_by_id_ok (d : Sheets) (identifier : string) :
  exists row, find_post_row_by_id d identifier = Ok row.
Proof.
  unfold find_post_row_by_id, find_post_column.
  destruct (find_column_range "Personal Identifier:" (post_headers d) 0)
    as [->|Hge].
  - now exists (-1)%Z.
  - destruct (_ =? -1)%Z; [now exists (-1)%Z|].
    destruct (column_values_ok _ (post_values d) Hge) as [vals ->].
    cbn [bind]. eauto.
Qed.

(** The response lookup does not: a row shorter than the column found by
    exact containment raises [IndexError]. *)
Lemma compile_pre_response_short_row
      (d : Sheets) (k : nat) (question : string) (r : list string) :
  nth_error (pre_values d) k = Some r ->
  (len r < find_pre_column d question)%Z ->
  compile_pre_response d (Z.of_nat k + 1) question = Raise IndexError.
Proof.
  intros Hr Hshort.
  assert (Hcol : (0 < find_pre_column d question)%Z)
    by (unfold len in Hshort; lia).
  assert (E1 : (find_pre_column d question =? -1)%Z = false)
    by (apply Z.eqb_neq; lia).
  assert (E2 : (Z.of_nat k + 1 =? -1)%Z = false) by (apply Z.eqb_neq; lia).
  assert (E3 : (find_pre_column d question - 1 <? 0)%Z = false)
    by (apply Z.ltb_ge; lia).
  unfold compile_pre_response. cbv zeta. rewrite !E1, E2. cbn [orb].
  replace (Z.of_nat k + 1 - 1)%Z with (Z.of_nat k) by lia.
  rewrite (py_getitem_nth _ _ _ Hr). cbn [bind].
  unfold py_getitem. rewrite !E3.
  destruct (nth_error r (Z.to_nat (find_pre_column d question - 1)))
    as [x|] eqn:Hx; [|reflexivity].
  assert (Hlt : (Z.to_nat (find_pre_column d question - 1) < length r)%nat).
  { apply nth_error_Some. congruence. }
  unfold len in Hshort. lia.
Qed.

(** C1: the participant [ab] is found on row 2 of both surveys and the
    question on column 2, but the row has a single cell: both response
    lookups raise [IndexError] instead of returning the empty string, and
    so does the whole computation for that participant. *)
Theorem short_row_raises_index_error :
  find_pre_row_by_id short_row_sheets "ab" = Ok 2%Z
  /\ find_post_row_by_id short_row_sheets "ab" = Ok 2%Z
  /\ find_pre_column short_row_sheets "Mood today" = 2%Z
  /\ find_post_column short_row_sheets "Mood today" = 2%Z
  /\ compile_pre_response short_row_sheets 2 "Mood today" = Raise IndexError
  /\ compile_post_response short_row_sheets 2 "Mood today" = Raise IndexError
  /\ get_user_numbers short_row_sheets "ab" = Raise IndexError.
Proof.
  repeat split; reflexivity.
Qed.

(** ** The record compiler *)

(** Without a row, the response is [ERROR] whatever the question. *)
Lemma compile_pre_response_not_found (d : Sheets) (question : string) :
  compile_pre_response d (-1) question = Ok ERROR.
Proof.
  unfold compile_pre_response. cbv zeta.
  now rewrite Z.eqb_refl, orb_true_r.
Qed.

(** [questions.index(q)] at a position that holds [q] is the first
    position holding [q], at most that position. *)
Lemma py_index_position (done qs : list string) (q : string) :
  exists k, py_index (done ++ q :: qs) q = Ok (Z.of_nat k)
            /\ (k <= length done)%nat
            /\ first_pos q (done ++ q :: qs) k.
Proof.
  assert (Hin : py_in q (done ++ q :: qs) = true).
  { unfold py_in. apply existsb_exists. exists q. split.
    - apply in_or_app. right. now left.
    - apply String.eqb_refl. }
  destruct (py_in_first _ _ Hin) as (k & Hk).
  exists k. destruct (index_from_first _ _ 0%Z k Hk) as [_ Hidx].
  split; [exact Hidx|]. split; [|exact Hk].
  destruct (Nat.le_gt_cases k (length done)) as [Hle|Hgt]; [exact Hle|].
  exfalso. destruct Hk as [_ Hfirst].
  apply (Hfirst (length done) q Hgt); [|reflexivity].
  rewrite nth_error_app2, Nat.sub_diag; [reflexivity|lia].
Qed.

(** The loop of [compile_responses], started at position [length done]
    with the flag [t]: every position below 36 is read from the pre-survey
    row, and when the question at position 36 does not repeat an earlier
    one, every position from 36 on is read from the post-survey row. *)
Lemma compile_loop_sources (d : Sheets) (pre_row post_row : Z) :
  forall qs done responses t out,
    questions d = (done ++ qs)%list ->
    (t = true -> 37 <= length done) ->
    compile_loop d pre_row post_row qs responses t = Ok out ->
    exists rs,
      out = (responses ++ rs)%list
      /\ forall i q, nth_error qs i = Some q ->
           exists r,
             nth_error rs i = Some r
             /\ (length done + i < 36 ->
                 compile_pre_response d pre_row q = Ok r)
             /\ (boundary_question_fresh (questions d) ->
                 (37 <= length done -> t = true) ->
                 36 <= length done + i ->
                 compile_post_response d post_row q = Ok r).
Proof.
  induction qs as [|q qs IH]; intros done responses t out Hq Ht Hrun.
  - simpl in Hrun. injection Hrun as <-. exists []. split.
    + now rewrite app_nil_r.
    + intros [|i] q H; discriminate.
  - cbn [compile_loop] in Hrun.
    destruct (py_index_position done qs q) as (k & Hidx & Hk & Hfirst).
    rewrite <- Hq in Hidx, Hfirst.
    assert (Htrig :
              exists t',
                (if t then Ok true
                 else idx <- py_index (questions d) q ;; Ok (36 <=? idx)%Z)
                = Ok t'
                /\ (t' = true -> 36 <= length done)
                /\ (boundary_question_fresh (questions d) ->
                    (37 <= length done -> t = true) ->
                    36 <= length done -> t' = true)).
    { destruct t.
      - exists true. split; [reflexivity|]. split; [|reflexivity].
        intros _. specialize (Ht eq_refl). lia.
      - rewrite Hidx. cbn [bind]. exists (36 <=? Z.of_nat k)%Z.
        split; [reflexivity|]. split.
        + intros H36. apply Z.leb_le in H36. lia.
        + intros Hfresh Hinv Hp. apply Z.leb_le.
          destruct (Nat.le_gt_cases 37 (length done)) as [H37|H37].
          { specialize (Hinv H37). discriminate. }
          assert (Hp36 : length done = 36) by lia.
          destruct (Nat.le_gt_cases 36 k) as [Hk36|Hk36]; [lia|].
          exfalso. destruct Hfirst as [Hnk _].
          apply (Hfresh k q Hk36 Hnk).
          rewrite Hq, nth_error_app2, Hp36, Nat.sub_diag; [reflexivity|lia]. }
    destruct Htrig as (t' & Htrig & Hpre & Hpost).
    rewrite Htrig in Hrun. cbn [bind] in Hrun.
    destruct (if t' then compile_post_response d post_row q
              else compile_pre_response d pre_row q) as [r|e] eqn:Hr;
      [|discriminate].
    cbn [bind] in Hrun.
    destruct (IH (done ++ [q])%list (responses ++ [r])%list t' out)
      as (rs & -> & Hrs).
    { now rewrite <- app_assoc. }
    { rewrite length_app. simpl length. intros H. specialize (Hpre H). lia. }
    { exact Hrun. }
    exists (r :: rs). split; [now rewrite <- app_assoc|].
    intros [|i] q' Hq'; simpl in Hq'.
    + injection Hq' as <-. exists r. split; [reflexivity|].
      rewrite Nat.add_0_r. split.
      * intros Hlt. destruct t'; [|exact Hr].
        specialize (Hpre eq_refl). lia.
      * intros Hfresh Hinv Hge. now rewrite (Hpost Hfresh Hinv Hge) in Hr.
    + destruct (Hrs i q' Hq') as (r' & Hr' & Hsrc_pre & Hsrc_post).
      rewrite length_app in Hsrc_pre, Hsrc_post.
      simpl length in Hsrc_pre, Hsrc_post.
      exists r'. split; [exact Hr'|]. split.
      * intros Hlt. apply Hsrc_pre. lia.
      * intros Hfresh Hinv Hge. apply Hsrc_post; [exact Hfresh| |lia].
        intros H37. apply (Hpost Hfresh Hinv). lia.
Qed.

(** X20: when the question at position 36 does not repeat an earlier
    one, position [i] of a compiled sequence is the sanitized cell of the
    pre-survey row when [i < 36] and of the post-survey row otherwise. *)
Lemma compile_responses_sources
      (d : Sheets) (identifier : string) (pre_row post_row : Z)
      (out : list string) :
  boundary_question_fresh (questions d) ->
  find_pre_row_by_id d identifier = Ok pre_row ->
  find_post_row_by_id d identifier = Ok post_row ->
  compile_responses d identifier = Ok out ->
  forall i q, nth_error (questions d) i = Some q ->
    exists r, nth_error out i = Some (filter_response r)
              /\ (if i <? 36 then compile_pre_response d pre_row q
                  else compile_post_response d post_row q) = Ok r.
Proof.
  intros Hfresh Hpre Hpost Hrun i q Hq.
  unfold compile_responses in Hrun. rewrite Hpre, Hpost in Hrun.
  cbn [bind] in Hrun.
  destruct (compile_loop d pre_row post_row (questions d) [] false)
    as [responses|e] eqn:Hloop; [|discriminate].
  cbn [bind] in Hrun. injection Hrun as <-.
  destruct (compile_loop_sources d pre_row post_row (questions d) []
                                 [] false responses eq_refl
                                 ltac:(discriminate) Hloop)
    as (rs & -> & Hrs).
  destruct (Hrs i q Hq) as (r & Hr & Hsrc_pre & Hsrc_post).
  exists r. split.
  - cbn [app]. now rewrite filter_responses_map, nth_error_map, Hr.
  - destruct (Nat.ltb_spec i 36) as [Hlt|Hge].
    + now apply Hsrc_pre.
    + apply Hsrc_post; [exact Hfresh| |exact Hge].
      simpl. intros H. lia.
Qed.

Example paired_sheets_fresh :
  boundary_question_fresh (questions paired_sheets).
Proof.
  intros j q Hj Hq. vm_compute in Hq.
  do 36 (destruct j as [|j]; [injection Hq as <-; discriminate|]).
  lia.
Qed.

Example compile_responses_sources_example :
  exists r,
    nth_error paired_out 36 = Some (filter_response r)
    /\ compile_post_response paired_sheets 2 "Closing thought" = Ok r.
Proof.
  assert (Hpre : find_pre_row_by_id paired_sheets "AB" = Ok 2%Z)
    by (vm_compute; reflexivity).
  assert (Hpost : find_post_row_by_id paired_sheets "AB" = Ok 2%Z)
    by (vm_compute; reflexivity).
  assert (Hout : compile_responses paired_sheets "AB" = Ok paired_out)
    by (vm_compute; reflexivity).
  assert (Hq : nth_error (questions paired_sheets) 36
               = Some "Closing thought")
    by (vm_compute; reflexivity).
  exact (compile_responses_sources paired_sheets "AB" 2 2 paired_out
           paired_sheets_fresh Hpre Hpost Hout 36 "Closing thought" Hq).
Defined.

(** A participant without a pre-survey row: every compiled response
    below position 36 is the text [ERROR]. *)
Lemma unmatched_row_compiles_error
      (d : Sheets) (identifier : string) (out : list string) :
  find_pre_row_by_id d identifier = Ok (-1)%Z ->
  compile_responses d identifier = Ok out ->
  forall i, i < 36 -> i < length (questions d) ->
            nth_error out i = Some ERROR.
Proof.
  intros Hpre Hrun i Hi Hlen.
  unfold compile_responses in Hrun. rewrite Hpre in Hrun. cbn [bind] in Hrun.
  destruct (find_post_row_by_id d identifier) as [post_row|e];
    [|discriminate].
  cbn [bind] in Hrun.
  destruct (compile_loop d (-1) post_row (questions d) [] false)
    as [responses|e] eqn:Hloop; [|discriminate].
  cbn [bind] in Hrun. injection Hrun as <-.
  destruct (compile_loop_sources d (-1) post_row (questions d) []
                                 [] false responses eq_refl
                                 ltac:(discriminate) Hloop)
    as (rs & -> & Hrs).
  destruct (nth_error (questions d) i) as [q|] eqn:Hq.
  2:{ apply nth_error_None in Hq. lia. }
  destruct (Hrs i q Hq) as (r & Hr & Hsrc_pre & _).
  specialize (Hsrc_pre Hi). rewrite compile_pre_response_not_found in Hsrc_pre.
  injection Hsrc_pre as <-.
  cbn [app]. now rewrite filter_responses_map, nth_error_map, Hr.
Qed.

(** The encoder on such a sequence: [ERROR] is looked up among the
    lower-cased siblings, found at position 0, and kept as [ERROR] only
    when the first question does not contain "write one word"; otherwise
    it is returned as the free-text code [error]. *)
Lemma unmatched_row_encoding
      (d : Sheets) (identifier : string) (out : list string)
      (q0 : string) (qs : list string) :
  find_pre_row_by_id d identifier = Ok (-1)%Z ->
  compile_responses d identifier = Ok out ->
  questions d = q0 :: qs ->
  response_to_number_helper d (Some ERROR) out
  = Ok (Str (if contains "write one word" (lower q0)
             then "error" else ERROR)).
Proof.
  intros Hpre Hrun Hq.
  assert (H0 : nth_error out 0 = Some ERROR).
  { apply (unmatched_row_compiles_error d identifier out Hpre Hrun).
    - lia.
    - rewrite Hq. simpl. lia. }
  rewrite response_to_number_helper_fallback; [|reflexivity|discriminate].
  assert (Hfirst : first_pos (strip (lower ERROR)) (map lower out) 0).
  { split; [|intros j y Hj; lia].
    now rewrite nth_error_map, H0. }
  destruct (index_from_first _ _ 0%Z 0 Hfirst) as [Hin Hidx].
  rewrite Hin. unfold py_index. rewrite Hidx. cbn [bind Z.add Z.of_nat].
  rewrite Hq. cbn [py_getitem Z.ltb Z.compare Z.to_nat nth_error bind].
  now destruct (contains "write one word" (lower q0)).
Qed.

(** C2: the participant [zz] has no pre-survey row, so both responses
    compile to [ERROR]; the first question contains "write one word", so
    the encoder takes each [ERROR] for a free-text answer and returns the
    lower-cased [error] instead of the sentinel. *)
Theorem unmatched_row_encodes_lowercase_error :
  find_pre_row_by_id unmatched_sheets "zz" = Ok (-1)%Z
  /\ compile_responses unmatched_sheets "zz" = Ok [ERROR; ERROR]
  /\ response_to_number unmatched_sheets [ERROR; ERROR]
     = Ok [Str "error"; Str "error"]
  /\ get_user_numbers unmatched_sheets "zz"
     = Ok [Int 1; Str "error"; Str "error"].
Proof.
  repeat split; reflexivity.
Qed.

(** A participant without a pre-survey row whose post-survey row is short:
    the computation raises. *)
Lemma unmatched_row_short_post_row_raises :
  find_pre_row_by_id short_post_row_sheets "zz" = Ok (-1)%Z
  /\ get_user_numbers short_post_row_sheets "zz" = Raise IndexError.
Proof.
  split; vm_compute; reflexivity.
Qed.

(** C3: the question at position 36 repeats the question at position 0,
    [questions.index] answers 0 for it, the switch to the post-survey is
    not taken, and position 36 holds the pre-survey answer [Yes] instead
    of the post-survey answer [No]. *)
Theorem repeated_question_read_from_pre_survey :
  nth_error (questions repeated_question_sheets) 36 = Some "Mood today"
  /\ py_index (questions repeated_question_sheets) "Mood today" = Ok 0%Z
  /\ find_pre_row_by_id repeated_question_sheets "ab" = Ok 2%Z
  /\ find_post_row_by_id repeated_question_sheets "ab" = Ok 2%Z
  /\ compile_pre_response repeated_question_sheets 2 "Mood today" = Ok "Yes"
  /\ compile_post_response repeated_question_sheets 2 "Mood today" = Ok "No"
  /\ exists out,
      compile_responses repeated_question_sheets "ab" = Ok out
      /\ nth_error out 36 = Some "Yes".
Proof.
  repeat split; try reflexivity.
  eexists. split; vm_compute; reflexivity.
Qed.

(** * Further properties of the program *)

(** ** Exact column lookup *)

Lemma find_column_spec (keyword : string) (headers : list string) (i : Z) :
  (find_column keyword headers i = (-1)%Z
   /\ forall h, In h headers -> contains keyword h = false)
  \/ exists k, find_column keyword headers i = (i + Z.of_nat k + 1)%Z
               /\ first_containing keyword headers k.
Proof.
  revert i. induction headers as [|h hs IH]; intros i; simpl.
  - left. split; [reflexivity|]. intros h [].
  - destruct (contains keyword h) eqn:Hh.
    + right. exists 0%nat. split; [lia|]. split.
      * exists h. now split.
      * intros j h' Hj. lia.
    + destruct (IH (i + 1)%Z) as [[Heq Hnone]|(k & Heq & (hk & Hk) & Hfirst)].
      * left. split; [exact Heq|]. intros h' [<-|Hin]; auto.
      * right. exists (S k). split; [lia|]. split; [exact (ex_intro _ hk Hk)|].
        intros [|j] h' Hj Hn; simpl in Hn.
        -- now injection Hn as <-.
        -- apply (Hfirst j); [lia|exact Hn].
Qed.

(** X1: [find_pre_column] and [find_post_column] return -1 exactly when no
    header contains the keyword as written (case-sensitively), and
    otherwise the 1-based position of the first header that does. *)
Theorem find_column_first_containing (d : Sheets) (keyword : string) :
  ((find_pre_column d keyword = (-1)%Z
    /\ forall h, In h (pre_headers d) -> contains keyword h = false)
   \/ exists k, find_pre_column d keyword = (Z.of_nat k + 1)%Z
                /\ first_containing keyword (pre_headers d) k)
  /\ ((find_post_column d keyword = (-1)%Z
       /\ forall h, In h (post_headers d) -> contains keyword h = false)
      \/ exists k, find_post_column d keyword = (Z.of_nat k + 1)%Z
                   /\ first_containing keyword (post_headers d) k).
Proof.
  split.
  - destruct (find_column_spec keyword (pre_headers d) 0) as [H|(k & H & Hk)].
    + now left.
    + right. exists k. split; [exact H|exact Hk].
  - destruct (find_column_spec keyword (post_headers d) 0) as [H|(k & H & Hk)].
    + now left.
    + right. exists k. split; [exact H|exact Hk].
Qed.

Lemma find_column_bounds (keyword : string) (headers : list string) :
  find_column keyword headers 0 = (-1)%Z
  \/ (1 <= find_column keyword headers 0 <= len headers)%Z.
Proof.
  destruct (find_column_spec keyword headers 0)
    as [[H _]|(k & H & (h & Hn & _) & _)]; [now left|right].
  assert (Hk : (k < length headers)%nat) by (apply nth_error_Some; congruence).
  unfold len. lia.
Qed.

(** ** The range of the resolver *)

(** X2: with a positive cutoff, [find_best_column] returns -1 or the
    1-based position of one of the headers; in particular -1 on an empty
    header list. *)
Theorem find_best_column_range
        (keyword : string) (headers : list string) (cutoff : Q) :
  (0 < cutoff)%Q ->
  find_best_column keyword headers cutoff = (-1)%Z
  \/ ((1 <= find_best_column keyword headers cutoff <= len headers)%Z
      /\ exists h,
          nth_error headers
                    (Z.to_nat (find_best_column keyword headers cutoff - 1))
          = Some h).
Proof.
  intros Hpos. unfold find_best_column.
  pose proof (substring_pass_spec (normalize keyword) headers 0) as Hspec.
  destruct (substring_pass (normalize keyword) headers 0) as [col|].
  - right. destruct Hspec as (k & -> & (h & Hn & _) & _).
    assert (Hk : (k < length headers)%nat)
      by (apply nth_error_Some; congruence).
    unfold len. split; [lia|]. exists h.
    now replace (Z.to_nat (0 + Z.of_nat k + 1 - 1)) with k by lia.
  - clear Hspec.
    destruct (fuzzy_pass_spec (normalize keyword) headers 0 (0%Q, (-1)%Z))
      as [[-> Hle]|(k & h & -> & (Hn & _) & Hlt)]; simpl in *.
    + left. destruct (Qle_bool cutoff 0) eqn:E; [|reflexivity].
      apply Qle_bool_iff in E. exfalso. exact (Qlt_not_le _ _ Hpos E).
    + destruct (Qle_bool cutoff (score (normalize keyword) h));
        [right|now left].
      assert (Hk : (k < length headers)%nat)
        by (apply nth_error_Some; congruence).
      unfold len. split; [lia|]. exists h.
      now replace (Z.to_nat (Z.of_nat k + 1 - 1)) with k by lia.
Qed.

Lemma find_best_column_range_witness :
  find_best_column "Gendr" ["Timestamp"; "Personal Identifier:"; "Gender"]
                   question_cutoff = (-1)%Z
  \/ ((1 <= find_best_column "Gendr"
                             ["Timestamp"; "Personal Identifier:"; "Gender"]
                             question_cutoff
       <= len ["Timestamp"; "Personal Identifier:"; "Gender"])%Z
      /\ exists h,
          nth_error ["Timestamp"; "Personal Identifier:"; "Gender"]
                    (Z.to_nat
                       (find_best_column
                          "Gendr"
                          ["Timestamp"; "Personal Identifier:"; "Gender"]
                          question_cutoff - 1))
          = Some h).
Proof.
  apply find_best_column_range. reflexivity.
Defined.

Lemma find_best_column_bounds
      (keyword : string) (headers : list string) (cutoff : Q) :
  (0 < cutoff)%Q ->
  find_best_column keyword headers cutoff = (-1)%Z
  \/ (1 <= find_best_column keyword headers cutoff <= len headers)%Z.
Proof.
  intros Hpos. unfold find_best_column.
  pose proof (substring_pass_spec (normalize keyword) headers 0) as Hspec.
  destruct (substring_pass (normalize keyword) headers 0) as [col|].
  - right. destruct Hspec as (k & -> & (h & Hn & _) & _).
    assert (Hk : (k < length headers)%nat)
      by (apply nth_error_Some; congruence).
    unfold len. lia.
  - clear Hspec.
    destruct (fuzzy_pass_spec (normalize keyword) headers 0 (0%Q, (-1)%Z))
      as [[-> Hle]|(k & h & -> & (Hn & _) & Hlt)]; simpl in *.
    + left. destruct (Qle_bool cutoff 0) eqn:E; [|reflexivity].
      apply Qle_bool_iff in E. exfalso. exact (Qlt_not_le _ _ Hpos E).
    + destruct (Qle_bool cutoff (score (normalize keyword) h));
        [right|now left].
      assert (Hk : (k < length headers)%nat)
        by (apply nth_error_Some; congruence).
      unfold len. lia.
Qed.

(** ** Row lookup *)

Lemma column_values_eq (col : Z) (values : list (list string)) :
  (1 <= col)%Z -> column_values col values = Ok (map (cell col) values).
Proof.
  intros Hcol. unfold column_values.
  induction values as [|row rows IH]; simpl; [reflexivity|].
  rewrite IH.
  destruct (col <=? len row)%Z eqn:E.
  - apply Z.leb_le in E. unfold len in E.
    destruct (nth_error row (Z.to_nat (col - 1))) as [x|] eqn:Hx.
    + rewrite (py_getitem_Z row (col - 1) x); [|lia|exact Hx].
      cbn [bind]. do 2 f_equal. unfold cell. symmetry.
      now apply nth_error_nth.
    + apply nth_error_None in Hx. lia.
  - apply Z.leb_gt in E. unfold len in E. cbn [bind].
    do 2 f_equal. unfold cell. symmetry. apply nth_overflow. lia.
Qed.

Lemma find_value_spec (identifier : string) (vals : list string) (i : Z) :
  (find_value identifier vals i = (-1)%Z
   /\ forall v, In v vals -> lower v <> lower identifier)
  \/ exists k,
      find_value identifier vals i = (i + Z.of_nat k + 1)%Z
      /\ (exists v, nth_error vals k = Some v
                    /\ lower v = lower identifier)
      /\ forall j v', (j < k)%nat -> nth_error vals j = Some v' ->
                      lower v' <> lower identifier.
Proof.
  revert i. induction vals as [|v vs IH]; intros i; simpl.
  - left. split; [reflexivity|]. intros v [].
  - destruct (String.eqb (lower v) (lower identifier)) eqn:E.
    + apply String.eqb_eq in E. right. exists 0%nat. split; [lia|]. split.
      * exists v. now split.
      * intros j v' Hj. lia.
    + apply String.eqb_neq in E.
      destruct (IH (i + 1)%Z) as [[Heq Hnone]|(k & Heq & Hk & Hfirst)].
      * left. split; [exact Heq|]. intros v' [<-|Hin]; auto.
      * right. exists (S k). split; [lia|]. split; [exact Hk|].
        intros [|j] v' Hj Hn; simpl in Hn.
        -- now injection Hn as <-.
        -- apply (Hfirst j); [lia|exact Hn].
Qed.

(** the body shared by [find_pre_row_by_id] and [find_post_row_by_id] *)
Lemma row_lookup_spec
      (headers : list string) (values : list (list string))
      (identifier : string) :
  exists row,
    (if (find_column "Personal Identifier:" headers 0 =? -1)%Z
     then Ok (-1)%Z
     else vals <- column_values
                    (find_column "Personal Identifier:" headers 0) values ;;
          Ok (find_value identifier vals 0%Z)) = Ok row
    /\ ((row = (-1)%Z
         /\ (find_column "Personal Identifier:" headers 0 = (-1)%Z
             \/ forall r, In r values ->
                  lower (cell (find_column "Personal Identifier:" headers 0) r)
                  <> lower identifier))
        \/ exists k,
            row = (Z.of_nat k + 1)%Z
            /\ first_row_of identifier
                            (find_column "Personal Identifier:" headers 0)
                            values k).
Proof.
  set (col := find_column "Personal Identifier:" headers 0).
  destruct (find_column_bounds "Personal Identifier:" headers) as [Hc|Hc];
    fold col in Hc.
  - rewrite Hc. exists (-1)%Z. split; [reflexivity|]. left. split; auto.
  - replace (col =? -1)%Z with false by (symmetry; apply Z.eqb_neq; lia).
    rewrite column_values_eq by lia. cbn [bind].
    destruct (find_value_spec identifier (map (cell col) values) 0)
      as [[Heq Hnone]|(k & Heq & (v & Hv & Hlow) & Hfirst)].
    + exists (-1)%Z. split; [now rewrite Heq|]. left. split; [reflexivity|].
      right. intros r Hin. apply Hnone. now apply in_map.
    + exists (Z.of_nat k + 1)%Z. split; [rewrite Heq; f_equal; lia|].
      right. exists k. split; [reflexivity|].
      rewrite nth_error_map in Hv. split.
      * destruct (nth_error values k) as [r|]; [|discriminate].
        exists r. split; [reflexivity|]. simpl in Hv. now injection Hv as <-.
      * intros j r' Hj Hr'. apply (Hfirst j (cell col r') Hj).
        now rewrite nth_error_map, Hr'.
Qed.

(** X3: [find_pre_row_by_id] and [find_post_row_by_id] never raise, short
    rows included.  They return -1 when the identifier column is missing
    or no row holds the identifier, and otherwise the 1-based number of
    the first row whose identifier cell equals it up to letter case. *)
Theorem find_row_by_id_spec (d : Sheets) (identifier : string) :
  (exists row,
      find_pre_row_by_id d identifier = Ok row
      /\ ((row = (-1)%Z
           /\ (find_pre_column d "Personal Identifier:" = (-1)%Z
               \/ forall r, In r (pre_values d) ->
                    lower (cell (find_pre_column d "Personal Identifier:") r)
                    <> lower identifier))
          \/ exists k,
              row = (Z.of_nat k + 1)%Z
              /\ first_row_of identifier
                              (find_pre_column d "Personal Identifier:")
                              (pre_values d) k))
  /\ (exists row,
         find_post_row_by_id d identifier = Ok row
         /\ ((row = (-1)%Z
              /\ (find_post_column d "Personal Identifier:" = (-1)%Z
                  \/ forall r, In r (post_values d) ->
                       lower (cell (find_post_column d "Personal Identifier:")
                                   r)
                       <> lower identifier))
             \/ exists k,
                 row = (Z.of_nat k + 1)%Z
                 /\ first_row_of identifier
                                 (find_post_column d "Personal Identifier:")
                                 (post_values d) k)).
Proof.
  split.
  - exact (row_lookup_spec (pre_headers d) (pre_values d) identifier).
  - exact (row_lookup_spec (post_headers d) (post_values d) identifier).
Qed.

Lemma row_lookup_bounds
      (headers : list string) (values : list (list string))
      (identifier : string) :
  exists row,
    (if (find_column "Personal Identifier:" headers 0 =? -1)%Z
     then Ok (-1)%Z
     else vals <- column_values
                    (find_column "Personal Identifier:" headers 0) values ;;
          Ok (find_value identifier vals 0%Z)) = Ok row
    /\ (row = (-1)%Z \/ (1 <= row <= len values)%Z).
Proof.
  destruct (row_lookup_spec headers values identifier)
    as (row & Hrow & [[-> _]|(k & -> & (r & Hr & _) & _)]).
  - exists (-1)%Z. split; [exact Hrow|now left].
  - exists (Z.of_nat k + 1)%Z. split; [exact Hrow|right].
    assert (Hk : (k < length values)%nat)
      by (apply nth_error_Some; congruence).
    unfold len. lia.
Qed.

(** ** Reading cells: when it raises and when it cannot *)

(** the body shared by [compile_pre_response] and [compile_post_response],
    on a row shorter than the column *)
Lemma cell_lookup_short_row
      (values : list (list string)) (k : nat) (r : list string) (col : Z) :
  nth_error values k = Some r -> (len r < col)%Z ->
  (if (col =? -1)%Z || (Z.of_nat k + 1 =? -1)%Z then Ok ERROR
   else r <- py_getitem values (Z.of_nat k + 1 - 1)%Z ;;
        py_getitem r (col - 1)%Z) = Raise IndexError.
Proof.
  intros Hr Hshort. unfold len in Hshort.
  replace (col =? -1)%Z with false by (symmetry; apply Z.eqb_neq; lia).
  replace (Z.of_nat k + 1 =? -1)%Z with false
    by (symmetry; apply Z.eqb_neq; lia).
  cbn [orb]. replace (Z.of_nat k + 1 - 1)%Z with (Z.of_nat k) by lia.
  rewrite (py_getitem_nth _ _ _ Hr). cbn [bind]. unfold py_getitem.
  assert (E : (col - 1 <? 0)%Z = false) by (apply Z.ltb_ge; lia).
  rewrite !E.
  destruct (nth_error r (Z.to_nat (col - 1))) as [x|] eqn:Hx; [|reflexivity].
  assert (Hlt : (Z.to_nat (col - 1) < length r)%nat)
    by (apply nth_error_Some; congruence).
  lia.
Qed.

(** X4: when the question is found by exact containment in a column that
    lies beyond the end of the participant's row, [compile_pre_response]
    and [compile_post_response] raise [IndexError]. *)
Theorem short_row_lookup_raises
        (d : Sheets) (question : string)
        (k_pre k_post : nat) (r_pre r_post : list string) :
  nth_error (pre_values d) k_pre = Some r_pre ->
  (len r_pre < find_pre_column d question)%Z ->
  nth_error (post_values d) k_post = Some r_post ->
  (len r_post < find_post_column d question)%Z ->
  compile_pre_response d (Z.of_nat k_pre + 1) question = Raise IndexError
  /\ compile_post_response d (Z.of_nat k_post + 1) question
     = Raise IndexError.
Proof.
  intros Hpre Hspre Hpost Hspost. split.
  - unfold compile_pre_response. cbv zeta.
    replace (find_pre_column d question =? -1)%Z with false
      by (symmetry; apply Z.eqb_neq; unfold len in Hspre; lia).
    exact (cell_lookup_short_row (pre_values d) k_pre r_pre _ Hpre Hspre).
  - unfold compile_post_response. cbv zeta.
    replace (find_post_column d question =? -1)%Z with false
      by (symmetry; apply Z.eqb_neq; unfold len in Hspost; lia).
    exact (cell_lookup_short_row (post_values d) k_post r_post _
                                 Hpost Hspost).
Qed.

Lemma short_row_lookup_raises_witness :
  compile_pre_response short_row_sheets (Z.of_nat 1 + 1) "Mood today"
  = Raise IndexError
  /\ compile_post_response short_row_sheets (Z.of_nat 1 + 1) "Mood today"
     = Raise IndexError.
Proof.
  apply (short_row_lookup_raises short_row_sheets "Mood today"
                                 1 1 ["ab"] ["ab"]);
    reflexivity.
Defined.

Lemma cell_lookup_ok
      (headers : list string) (values : list (list string)) (row col : Z) :
  rectangular headers values ->
  col = (-1)%Z \/ (1 <= col <= len headers)%Z ->
  row = (-1)%Z \/ (1 <= row <= len values)%Z ->
  exists s,
    (if (col =? -1)%Z || (row =? -1)%Z then Ok ERROR
     else r <- py_getitem values (row - 1)%Z ;; py_getitem r (col - 1)%Z)
    = Ok s.
Proof.
  intros Hrect [->|Hcol]; [now exists ERROR|].
  intros [->|Hrow].
  { exists ERROR. now rewrite orb_true_r. }
  unfold len in Hcol, Hrow.
  replace (col =? -1)%Z with false by (symmetry; apply Z.eqb_neq; lia).
  replace (row =? -1)%Z with false by (symmetry; apply Z.eqb_neq; lia).
  cbn [orb].
  destruct (nth_error values (Z.to_nat (row - 1))) as [r|] eqn:Hr.
  2:{ apply nth_error_None in Hr. lia. }
  rewrite (py_getitem_Z values (row - 1) r); [|lia|exact Hr]. cbn [bind].
  pose proof (Hrect r (nth_error_In _ _ Hr)) as Hlen.
  destruct (nth_error r (Z.to_nat (col - 1))) as [x|] eqn:Hx.
  2:{ apply nth_error_None in Hx. lia. }
  exists x. apply py_getitem_Z; [lia|exact Hx].
Qed.

Lemma resolved_column_bounds (question : string) (headers : list string) :
  (if (find_column question headers 0 =? -1)%Z
   then find_best_column question headers question_cutoff
   else find_column question headers 0) = (-1)%Z
  \/ (1 <= (if (find_column question headers 0 =? -1)%Z
            then find_best_column question headers question_cutoff
            else find_column question headers 0) <= len headers)%Z.
Proof.
  destruct (find_column_bounds question headers) as [->|Hc].
  - simpl. apply find_best_column_bounds. reflexivity.
  - replace (find_column question headers 0 =? -1)%Z with false
      by (symmetry; apply Z.eqb_neq; lia).
    now right.
Qed.

Lemma compile_pre_response_ok (d : Sheets) (row : Z) (question : string) :
  rectangular (pre_headers d) (pre_values d) ->
  row = (-1)%Z \/ (1 <= row <= len (pre_values d))%Z ->
  exists s, compile_pre_response d row question = Ok s.
Proof.
  intros Hrect Hrow. unfold compile_pre_response. cbv zeta.
  apply (cell_lookup_ok (pre_headers d)); auto.
  apply resolved_column_bounds.
Qed.

Lemma compile_post_response_ok (d : Sheets) (row : Z) (question : string) :
  rectangular (post_headers d) (post_values d) ->
  row = (-1)%Z \/ (1 <= row <= len (post_values d))%Z ->
  exists s, compile_post_response d row question = Ok s.
Proof.
  intros Hrect Hrow. unfold compile_post_response. cbv zeta.
  apply (cell_lookup_ok (post_headers d)); auto.
  apply resolved_column_bounds.
Qed.

(** X5: on tables whose rows have at least as many cells as there are
    headers, [compile_pre_response] and [compile_post_response] never
    raise for a row number that is -1 or within the table. *)
Theorem response_lookup_never_raises
        (d : Sheets) (pre_row post_row : Z) (question : string) :
  rectangular (pre_headers d) (pre_values d) ->
  rectangular (post_headers d) (post_values d) ->
  pre_row = (-1)%Z \/ (1 <= pre_row <= len (pre_values d))%Z ->
  post_row = (-1)%Z \/ (1 <= post_row <= len (post_values d))%Z ->
  (exists s, compile_pre_response d pre_row question = Ok s)
  /\ exists s, compile_post_response d post_row question = Ok s.
Proof.
  intros Hpre Hpost Hr1 Hr2. split.
  - now apply compile_pre_response_ok.
  - now apply compile_post_response_ok.
Qed.

Lemma paired_sheets_rectangular :
  rectangular (pre_headers paired_sheets) (pre_values paired_sheets)
  /\ rectangular (post_headers paired_sheets) (post_values paired_sheets).
Proof.
  split; intros r [<-|[<-|[]]]; simpl; lia.
Qed.

Lemma response_lookup_never_raises_witness :
  (exists s, compile_pre_response paired_sheets 2 "Mood today" = Ok s)
  /\ exists s, compile_post_response paired_sheets (-1) "Mood today" = Ok s.
Proof.
  apply response_lookup_never_raises.
  - exact (proj1 paired_sheets_rectangular).
  - exact (proj2 paired_sheets_rectangular).
  - right. unfold len. simpl. lia.
  - now left.
Defined.

(** ** The whole computation for one participant *)

Lemma compile_loop_length (d : Sheets) (pre_row post_row : Z) :
  forall qs responses t out,
    compile_loop d pre_row post_row qs responses t = Ok out ->
    length out = (length responses + length qs)%nat.
Proof.
  induction qs as [|q qs IH]; intros responses t out Hrun.
  - simpl in Hrun. injection Hrun as <-. simpl. lia.
  - cbn [compile_loop] in Hrun.
    destruct (if t then Ok true
              else idx <- py_index (questions d) q ;; Ok (36 <=? idx)%Z)
      as [t'|e]; [|discriminate].
    cbn [bind] in Hrun.
    destruct (if t' then compile_post_response d post_row q
              else compile_pre_response d pre_row q) as [r|e];
      [|discriminate].
    cbn [bind] in Hrun. rewrite (IH _ _ _ Hrun), length_app. simpl. lia.
Qed.

(** X6: whatever the question list, a compiled sequence has one response
    per question, and every position below 36 holds the sanitized cell of
    the pre-survey row: repeated questions cannot move the switch to the
    post-survey before position 36. *)
Theorem compile_responses_shape
        (d : Sheets) (identifier : string) (out : list string) :
  compile_responses d identifier = Ok out ->
  length out = length (questions d)
  /\ exists pre_row,
      find_pre_row_by_id d identifier = Ok pre_row
      /\ forall i q, i < 36 -> nth_error (questions d) i = Some q ->
           exists r, compile_pre_response d pre_row q = Ok r
                     /\ nth_error out i = Some (filter_response r).
Proof.
  intros Hrun. unfold compile_responses in Hrun.
  destruct (find_pre_row_by_id d identifier) as [pre_row|e]; [|discriminate].
  cbn [bind] in Hrun.
  destruct (find_post_row_by_id d identifier) as [post_row|e];
    [|discriminate].
  cbn [bind] in Hrun.
  destruct (compile_loop d pre_row post_row (questions d) [] false)
    as [responses|e] eqn:Hloop; [|discriminate].
  cbn [bind] in Hrun. injection Hrun as <-. split.
  - rewrite filter_responses_map, length_map.
    now rewrite (compile_loop_length _ _ _ _ _ _ _ Hloop).
  - exists pre_row. split; [reflexivity|]. intros i q Hi Hq.
    destruct (compile_loop_sources d pre_row post_row (questions d) []
                                   [] false responses eq_refl
                                   ltac:(discriminate) Hloop)
      as (rs & -> & Hrs).
    destruct (Hrs i q Hq) as (r & Hr & Hsrc & _).
    exists r. split; [now apply Hsrc|].
    cbn [app]. now rewrite filter_responses_map, nth_error_map, Hr.
Qed.

Lemma compile_responses_shape_witness :
  length paired_out = length (questions paired_sheets)
  /\ exists pre_row,
      find_pre_row_by_id paired_sheets "AB" = Ok pre_row
      /\ forall i q, i < 36 ->
           nth_error (questions paired_sheets) i = Some q ->
           exists r, compile_pre_response paired_sheets pre_row q = Ok r
                     /\ nth_error paired_out i = Some (filter_response r).
Proof.
  apply (compile_responses_shape paired_sheets "AB" paired_out).
  vm_compute. reflexivity.
Defined.

Lemma compile_loop_ok (d : Sheets) (pre_row post_row : Z) :
  rectangular (pre_headers d) (pre_values d) ->
  rectangular (post_headers d) (post_values d) ->
  pre_row = (-1)%Z \/ (1 <= pre_row <= len (pre_values d))%Z ->
  post_row = (-1)%Z \/ (1 <= post_row <= len (post_values d))%Z ->
  forall qs done responses t,
    questions d = (done ++ qs)%list ->
    exists out, compile_loop d pre_row post_row qs responses t = Ok out.
Proof.
  intros Hpre Hpost Hr1 Hr2.
  induction qs as [|q qs IH]; intros done responses t Hq.
  - now exists responses.
  - cbn [compile_loop].
    destruct (py_index_position done qs q) as (k & Hidx & _).
    rewrite <- Hq in Hidx.
    assert (Ht : exists t',
               (if t then Ok true
                else idx <- py_index (questions d) q ;; Ok (36 <=? idx)%Z)
               = Ok t').
    { destruct t; [now exists true|]. rewrite Hidx. cbn [bind]. eauto. }
    destruct Ht as [t' ->]. cbn [bind].
    assert (Hr : exists r,
               (if t' then compile_post_response d post_row q
                else compile_pre_response d pre_row q) = Ok r).
    { destruct t'.
      - now apply compile_post_response_ok.
      - now apply compile_pre_response_ok. }
    destruct Hr as [r ->]. cbn [bind].
    apply (IH (done ++ [q])%list). now rewrite <- app_assoc.
Qed.

Lemma find_pre_row_by_id_bounds (d : Sheets) (identifier : string) :
  exists row, find_pre_row_by_id d identifier = Ok row
              /\ (row = (-1)%Z \/ (1 <= row <= len (pre_values d))%Z).
Proof.
  exact (row_lookup_bounds (pre_headers d) (pre_values d) identifier).
Qed.

Lemma find_post_row_by_id_bounds (d : Sheets) (identifier : string) :
  exists row, find_post_row_by_id d identifier = Ok row
              /\ (row = (-1)%Z \/ (1 <= row <= len (post_values d))%Z).
Proof.
  exact (row_lookup_bounds (post_headers d) (post_values d) identifier).
Qed.

Lemma compile_responses_ok (d : Sheets) (identifier : string) :
  rectangular (pre_headers d) (pre_values d) ->
  rectangular (post_headers d) (post_values d) ->
  exists out, compile_responses d identifier = Ok out
              /\ length out = length (questions d).
Proof.
  intros Hpre Hpost. unfold compile_responses.
  destruct (find_pre_row_by_id_bounds d identifier) as (pre_row & -> & Hr1).
  destruct (find_post_row_by_id_bounds d identifier) as (post_row & -> & Hr2).
  cbn [bind].
  destruct (compile_loop_ok d pre_row post_row Hpre Hpost Hr1 Hr2
                            (questions d) [] [] false eq_refl)
    as [responses Hloop].
  rewrite Hloop. cbn [bind]. eexists. split; [reflexivity|].
  rewrite filter_responses_map, length_map.
  now rewrite (compile_loop_length _ _ _ _ _ _ _ Hloop).
Qed.

Lemma response_to_number_helper_cases
      (d : Sheets) (response : string) (rs : list string) :
  (length rs <= length (questions d))%nat ->
  exists c,
    response_to_number_helper d (Some response) rs = Ok c
    /\ ((exists n, c = Int n) \/ c = Str "" \/ c = Str ERROR
        \/ (c = Str (strip (lower response))
            /\ exists q, In q (questions d)
                         /\ contains "write one word" (lower q) = true)).
Proof.
  intros Hlen. unfold response_to_number_helper.
  destruct (match_case (strip (lower response)) vocabulary) as [n|].
  { exists (Int n). split; [reflexivity|]. left. now exists n. }
  destruct (String.eqb (strip (lower response)) ""
            || String.eqb (strip (lower response)) " ").
  { exists (Str ""). split; [reflexivity|]. right. now left. }
  destruct (py_in (strip (lower response)) (map lower rs)) eqn:Hin.
  2:{ exists (Str ERROR). split; [reflexivity|]. right. right. now left. }
  destruct (py_in_first _ _ Hin) as (k & Hk).
  destruct (index_from_first _ _ 0%Z k Hk) as [_ Hidx].
  unfold py_index. rewrite Hidx. cbn [bind Z.add].
  destruct Hk as [Hn _].
  assert (Hk : (k < length (questions d))%nat).
  { apply (Nat.lt_le_trans _ (length rs)); [|exact Hlen].
    rewrite <- (length_map lower). apply nth_error_Some. congruence. }
  destruct (nth_error (questions d) k) as [q|] eqn:Hq.
  2:{ apply nth_error_None in Hq. lia. }
  rewrite (py_getitem_nth _ _ _ Hq). cbn [bind].
  destruct (contains "write one word" (lower q)) eqn:Hphrase.
  - exists (Str (strip (lower response))). split; [reflexivity|].
    right. right. right. split; [reflexivity|].
    exists q. split; [exact (nth_error_In _ _ Hq)|exact Hphrase].
  - exists (Str ERROR). split; [reflexivity|]. right. right. now left.
Qed.

Lemma mapM_ok {A B : Type} (f : A -> result B) (l : list A) :
  (forall x, In x l -> exists y, f x = Ok y) ->
  exists ys, mapM f l = Ok ys /\ length ys = length l.
Proof.
  induction l as [|x l IH]; intros Hf.
  - now exists [].
  - destruct (Hf x (or_introl eq_refl)) as [y Hy].
    destruct IH as (ys & Hys & Hlen).
    { intros x' Hin. apply Hf. now right. }
    exists (y :: ys). simpl. rewrite Hy. cbn [bind]. rewrite Hys.
    cbn [bind]. split; [reflexivity|]. simpl. now rewrite Hlen.
Qed.

(** X7: when there are no more responses than questions,
    [response_to_number] never raises and returns one code per
    response. *)
Theorem response_to_number_length (d : Sheets) (rs : list string) :
  (length rs <= length (questions d))%nat ->
  exists codes, response_to_number d rs = Ok codes
                /\ length codes = length rs.
Proof.
  intros Hlen. unfold response_to_number. apply mapM_ok.
  intros r _.
  destruct (response_to_number_helper_cases d r rs Hlen) as (c & Hc & _).
  now exists c.
Qed.

Lemma response_to_number_length_witness :
  exists codes,
    response_to_number two_answer_sheets ["Yes"; "Resilience"] = Ok codes
    /\ length codes = length ["Yes"; "Resilience"].
Proof.
  apply response_to_number_length. simpl. lia.
Defined.

(** X8: on sheets whose rows have at least as many cells as there are
    headers, [get_user_numbers] never raises: it returns the attendance
    count followed by one code per question. *)
Theorem get_user_numbers_total (d : Sheets) (identifier : string) :
  rectangular (pre_headers d) (pre_values d) ->
  rectangular (post_headers d) (post_values d) ->
  exists codes,
    get_user_numbers d identifier
    = Ok (Int (count_attendance d identifier) :: codes)
    /\ length codes = length (questions d).
Proof.
  intros Hpre Hpost. unfold get_user_numbers.
  destruct (compile_responses_ok d identifier Hpre Hpost)
    as (out & -> & Hlen).
  cbn [bind].
  assert (Hle : (length out <= length (questions d))%nat) by lia.
  destruct (mapM_ok (fun r => response_to_number_helper d (Some r) out) out)
    as (codes & Hcodes & Hclen).
  { intros r _.
    destruct (response_to_number_helper_cases d r out Hle) as (c & Hc & _).
    now exists c. }
  unfold response_to_number. rewrite Hcodes. cbn [bind].
  exists codes. split; [reflexivity|]. now rewrite Hclen.
Qed.

Lemma get_user_numbers_total_witness :
  exists codes,
    get_user_numbers paired_sheets "AB"
    = Ok (Int (count_attendance paired_sheets "AB") :: codes)
    /\ length codes = length (questions paired_sheets).
Proof.
  apply get_user_numbers_total.
  - exact (proj1 paired_sheets_rectangular).
  - exact (proj2 paired_sheets_rectangular).
Defined.

(** X9: when no question contains "write one word" in any letter case and
    there are no more sibling responses than questions, the encoder is
    closed: it returns an integer code, the empty string or [ERROR], never
    the answer text. *)
Theorem encoder_closed_without_free_text_question
        (d : Sheets) (response : string) (rs : list string) :
  (forall q, In q (questions d) ->
             contains "write one word" (lower q) = false) ->
  (length rs <= length (questions d))%nat ->
  exists c,
    response_to_number_helper d (Some response) rs = Ok c
    /\ ((exists n, c = Int n) \/ c = Str "" \/ c = Str ERROR).
Proof.
  intros Hnone Hlen.
  destruct (response_to_number_helper_cases d response rs Hlen)
    as (c & Hc & [H|[H|[H|(_ & q & Hq & Hphrase)]]]);
    exists c; (split; [exact Hc|]); auto.
  rewrite (Hnone q Hq) in Hphrase. discriminate.
Qed.

Lemma encoder_closed_without_free_text_question_witness :
  exists c,
    response_to_number_helper short_row_sheets (Some "Resilience")
                              ["Resilience"] = Ok c
    /\ ((exists n, c = Int n) \/ c = Str "" \/ c = Str ERROR).
Proof.
  apply encoder_closed_without_free_text_question.
  - intros q [<-|[]]. reflexivity.
  - simpl. lia.
Defined.

Lemma match_case_In (r : string) (arms : list (string * Z)) (n : Z) :
  match_case r arms = Some n -> In (r, n) arms.
Proof.
  induction arms as [|[key m] arms IH]; simpl; [discriminate|].
  destruct (String.eqb r key) eqn:E.
  - intros H. injection H as <-. apply String.eqb_eq in E. subst key.
    now left.
  - intros H. right. now apply IH.
Qed.

Lemma vocabulary_codes_in_range : forallb code_in_range vocabulary = true.
Proof. vm_compute. reflexivity. Qed.

(** X10: every integer the encoder returns comes from the vocabulary
    table and lies between 0 and 14. *)
Theorem encoder_integer_codes
        (d : Sheets) (response : option string) (rs : list string) (n : Z) :
  response_to_number_helper d response rs = Ok (Int n) ->
  (0 <= n <= 14)%Z
  /\ exists r, response = Some r /\ In (strip (lower r), n) vocabulary.
Proof.
  unfold response_to_number_helper.
  destruct response as [r|]; [|discriminate].
  destruct (match_case (strip (lower r)) vocabulary) as [m|] eqn:Hm.
  - intros H. injection H as <-. apply match_case_In in Hm.
    pose proof (proj1 (forallb_forall code_in_range vocabulary)
                      vocabulary_codes_in_range _ Hm) as Hr.
    unfold code_in_range in Hr. cbn [snd] in Hr.
    apply andb_true_iff in Hr as [H0 H14].
    apply Z.leb_le in H0. apply Z.leb_le in H14.
    split; [lia|]. now exists r.
  - destruct (String.eqb (strip (lower r)) ""
              || String.eqb (strip (lower r)) " "); [discriminate|].
    destruct (py_in (strip (lower r)) (map lower rs)); [|discriminate].
    destruct (py_index (map lower rs) (strip (lower r))) as [idx|e];
      [|discriminate].
    cbn [bind].
    destruct (py_getitem (questions d) idx) as [q|e]; [|discriminate].
    cbn [bind].
    destruct (contains "write one word" (lower q)); discriminate.
Qed.

Lemma encoder_integer_codes_witness :
  (0 <= 4 <= 14)%Z
  /\ exists r, Some "Strongly Agree" = Some r
               /\ In (strip (lower r), 4%Z) vocabulary.
Proof.
  apply (encoder_integer_codes free_text_sheets (Some "Strongly Agree") []).
  reflexivity.
Defined.

(** X11: a missing response, and every response made only of whitespace,
    is encoded as the empty string, whatever the sibling responses and the
    questions are. *)
Theorem blank_response_encodes_blank
        (d : Sheets) (response : string) (rs : list string) :
  all_space response = true ->
  response_to_number_helper d None rs = Ok (Str "")
  /\ response_to_number_helper d (Some response) rs = Ok (Str "").
Proof.
  intros Hws. split; [reflexivity|].
  unfold response_to_number_helper.
  assert (Hs : strip (lower response) = "").
  { unfold strip. rewrite lstrip_all_space; [reflexivity|].
    now rewrite all_space_lower. }
  rewrite Hs. reflexivity.
Qed.

Lemma blank_response_encodes_blank_witness :
  response_to_number_helper free_text_sheets None ["x"] = Ok (Str "")
  /\ response_to_number_helper free_text_sheets
                               (Some (String (ascii_of_nat 9) "  "))
                               ["x"]
     = Ok (Str "").
Proof.
  apply blank_response_encodes_blank. reflexivity.
Defined.

(** ** Attendance and identifier seeding *)

Lemma filter_length_zero {A : Type} (f : A -> bool) (l : list A) :
  length (filter f l) = 0%nat <-> forall x, In x l -> f x = false.
Proof.
  induction l as [|a l IH]; simpl.
  - split; [intros _ x []|reflexivity].
  - destruct (f a) eqn:E; simpl.
    + split; [discriminate|]. intros H.
      rewrite (H a (or_introl eq_refl)) in E. discriminate.
    + rewrite IH. split.
      * intros H x [<-|Hin]; auto.
      * intros H x Hin. apply H. now right.
Qed.

(** X12: the attendance count lies between 0 and the number of attendance
    entries, is 0 exactly when no entry equals the identifier up to letter
    case, and does not depend on the letter case of the identifier. *)
Theorem count_attendance_spec (d : Sheets) (identifier : string) :
  (0 <= count_attendance d identifier <= len (attendance_values d))%Z
  /\ (count_attendance d identifier = 0%Z
      <-> forall v, In v (attendance_values d) ->
                    lower v <> lower identifier)
  /\ forall identifier',
      lower identifier' = lower identifier ->
      count_attendance d identifier' = count_attendance d identifier.
Proof.
  unfold count_attendance, len. repeat split.
  - lia.
  - apply inj_le. apply filter_length_le.
  - intros H v Hin.
    assert (H0 : length (filter (fun v0 => String.eqb (lower v0)
                                                      (lower identifier))
                                (attendance_values d)) = 0%nat) by lia.
    apply String.eqb_neq.
    exact (proj1 (filter_length_zero _ _) H0 v Hin).
  - intros H.
    assert (H0 : length (filter (fun v0 => String.eqb (lower v0)
                                                      (lower identifier))
                                (attendance_values d)) = 0%nat).
    { apply filter_length_zero. intros v Hin.
      apply String.eqb_neq. now apply H. }
    now rewrite H0.
  - intros identifier' ->. reflexivity.
Qed.

Lemma py_in_In (x : string) (l : list string) :
  py_in x l = true <-> In x l.
Proof.
  unfold py_in. rewrite existsb_exists. split.
  - intros (y & Hin & E). apply String.eqb_eq in E. now subst y.
  - intros Hin. exists x. split; [exact Hin|apply String.eqb_refl].
Qed.

Lemma identifier_loop_spec (vals identities : list string) :
  NoDup identities ->
  NoDup (identifier_loop vals identities)
  /\ forall x,
      In x (identifier_loop vals identities)
      <-> In x identities
          \/ exists v, In v vals /\ lower v = x
                       /\ contains "first two letters" x = false.
Proof.
  revert identities. induction vals as [|v vs IH]; intros identities Hnd.
  - simpl. split; [exact Hnd|]. intros x. split; [now left|].
    intros [H|(v & [] & _)]. exact H.
  - cbn [identifier_loop]. cbv zeta.
    destruct (py_in (lower v) identities) eqn:Hin; cbn [negb andb].
    + apply py_in_In in Hin.
      destruct (IH identities Hnd) as [Hnd' Hiff]. split; [exact Hnd'|].
      intros x. rewrite Hiff. split.
      * intros [H|(v' & Hv' & Hl & Hp)]; [now left|right].
        exists v'. split; [now right|now split].
      * intros [H|(v' & [<-|Hv'] & Hl & Hp)]; [now left| |].
        -- left. now rewrite <- Hl.
        -- right. exists v'. now split.
    + assert (Hnotin : ~ In (lower v) identities).
      { intros H. apply py_in_In in H. congruence. }
      destruct (contains "first two letters" (lower v)) eqn:Hp; cbn [negb].
      * destruct (IH identities Hnd) as [Hnd' Hiff]. split; [exact Hnd'|].
        intros x. rewrite Hiff. split.
        -- intros [H|(v' & Hv' & Hl & Hp')]; [now left|right].
           exists v'. split; [now right|now split].
        -- intros [H|(v' & [<-|Hv'] & Hl & Hp')]; [now left| |].
           ++ rewrite <- Hl in Hp'. congruence.
           ++ right. exists v'. now split.
      * assert (Hnd2 : NoDup (identities ++ [lower v])).
        { apply NoDup_app; [exact Hnd|repeat constructor; intros []|].
          intros a Ha [<-|[]]. contradiction. }
        destruct (IH (identities ++ [lower v])%list Hnd2) as [Hnd' Hiff].
        split; [exact Hnd'|].
        intros x. rewrite Hiff, in_app_iff. split.
        -- intros [[H|[<-|[]]]|(v' & Hv' & Hl & Hp')].
           ++ now left.
           ++ right. exists v. split; [now left|now split].
           ++ right. exists v'. split; [now right|now split].
        -- intros [H|(v' & [<-|Hv'] & Hl & Hp')].
           ++ left. now left.
           ++ left. right. left. exact Hl.
           ++ right. exists v'. now split.
Qed.

(** X13: [identifier_getter] returns each identifier once: its result has
    no repetition and holds exactly the lower-cased attendance entries
    that do not contain "first two letters". *)
Theorem identifier_getter_spec (d : Sheets) :
  NoDup (identifier_getter d)
  /\ forall x,
      In x (identifier_getter d)
      <-> exists v, In v (attendance_values d) /\ lower v = x
                    /\ contains "first two letters" x = false.
Proof.
  destruct (identifier_loop_spec (attendance_values d) [] (NoDup_nil _))
    as [Hnd Hiff].
  split; [exact Hnd|]. intros x.
  unfold identifier_getter. rewrite Hiff. split.
  - intros [[]|H]. exact H.
  - intros H. now right.
Qed.

Lemma filter_length_pos {A : Type} (f : A -> bool) (l : list A) (x : A) :
  In x l -> f x = true -> (1 <= length (filter f l))%nat.
Proof.
  intros Hin Hf.
  assert (H : In x (filter f l)) by (apply filter_In; now split).
  destruct (filter f l); [destruct H|simpl; lia].
Qed.

(** X14: every identifier that [identifier_getter] seeds is lower-case and
    has an attendance count of at least 1. *)
Theorem seeded_identifier_attended (d : Sheets) (x : string) :
  In x (identifier_getter d) ->
  lower x = x /\ (1 <= count_attendance d x)%Z.
Proof.
  intros Hin.
  destruct (identifier_loop_spec (attendance_values d) [] (NoDup_nil _))
    as [_ Hiff].
  apply Hiff in Hin. destruct Hin as [[]|(v & Hv & <- & _)].
  split; [apply lower_idem|].
  unfold count_attendance, len. rewrite lower_idem.
  apply (inj_le 1). apply (filter_length_pos _ _ v Hv).
  apply String.eqb_refl.
Qed.

Lemma seeded_identifier_attended_witness :
  lower "ab" = "ab" /\ (1 <= count_attendance paired_sheets "ab")%Z.
Proof.
  apply seeded_identifier_attended. vm_compute. now left.
Defined.

(** ** Selecting the rows still to process *)

Lemma column_b_eq (master_values : list (list string)) :
  mapM (fun row => if (1 <? len row)%Z then py_getitem row 1%Z else Ok "")
       master_values
  = Ok (map (fun row => nth 1 row "") master_values).
Proof.
  induction master_values as [|row rows IH]; simpl; [reflexivity|].
  rewrite IH. destruct (1 <? len row)%Z eqn:E.
  - apply Z.ltb_lt in E. unfold len in E.
    destruct (nth_error row 1) as [x|] eqn:Hx.
    + rewrite (py_getitem_Z row 1%Z x); [|lia|exact Hx]. cbn [bind].
      do 2 f_equal. symmetry. now apply nth_error_nth.
    + apply nth_error_None in Hx. lia.
  - apply Z.ltb_ge in E. unfold len in E. cbn [bind].
    do 2 f_equal. symmetry. apply nth_overflow. lia.
Qed.

Lemma is_empty_true (s : string) : is_empty s = true <-> s = "".
Proof.
  destruct s; simpl; split; congruence.
Qed.

Lemma filter_names_loop_spec (col_b : list string) :
  forall names i0 out,
    exists res,
      filter_names_loop col_b names (Z.of_nat i0) out = Ok res
      /\ (length res <= length out + length names)%nat
      /\ forall name,
          In name res
          <-> In name out
              \/ exists k, nth_error names k = Some name
                           /\ nth_error col_b (i0 + k + 4) = Some "".
Proof.
  induction names as [|n names IH]; intros i0 out.
  - exists out. split; [reflexivity|]. split; [simpl; lia|].
    intros name. split; [now left|].
    intros [H|(k & Hk & _)]; [exact H|destruct k; discriminate].
  - cbn [filter_names_loop].
    assert (Hkeep :
              exists keep,
                (if (Z.of_nat i0 + 4 <? len col_b)%Z
                 then c <- py_getitem col_b (Z.of_nat i0 + 4)%Z ;;
                      Ok (is_empty c)
                 else Ok false) = Ok keep
                /\ (keep = true <-> nth_error col_b (i0 + 4) = Some "")).
    { destruct (Z.of_nat i0 + 4 <? len col_b)%Z eqn:E.
      - apply Z.ltb_lt in E. unfold len in E.
        destruct (nth_error col_b (i0 + 4)) as [c|] eqn:Hc.
        2:{ apply nth_error_None in Hc. lia. }
        replace (Z.of_nat i0 + 4)%Z with (Z.of_nat (i0 + 4)) by lia.
        rewrite (py_getitem_nth _ _ _ Hc). cbn [bind].
        exists (is_empty c). split; [reflexivity|].
        rewrite is_empty_true. split; congruence.
      - apply Z.ltb_ge in E. unfold len in E.
        exists false. split; [reflexivity|].
        assert (Hc : nth_error col_b (i0 + 4) = None)
          by (apply nth_error_None; lia).
        rewrite Hc. split; discriminate. }
    destruct Hkeep as (keep & -> & Hkeep). cbn [bind].
    replace (Z.of_nat i0 + 1)%Z with (Z.of_nat (S i0)) by lia.
    destruct (IH (S i0) (if keep then (out ++ [n])%list else out))
      as (res & -> & Hlen & Hiff).
    exists res. split; [reflexivity|]. split.
    { destruct keep; [rewrite length_app in Hlen|]; simpl in *; lia. }
    intros name. rewrite Hiff. split.
    + intros [H|(k & Hk & Hc)].
      * destruct keep.
        -- apply in_app_iff in H as [H|[<-|[]]]; [now left|].
           right. exists 0%nat. split; [reflexivity|].
           rewrite Nat.add_0_r. now apply Hkeep.
        -- now left.
      * right. exists (S k). split; [exact Hk|].
        now replace (i0 + S k + 4)%nat with (S i0 + k + 4)%nat by lia.
    + intros [H|(k & Hk & Hc)].
      * left. destruct keep; [apply in_app_iff; now left|exact H].
      * destruct k as [|k]; simpl in Hk.
        -- injection Hk as <-. rewrite Nat.add_0_r in Hc.
           apply Hkeep in Hc. subst keep. left.
           apply in_app_iff. right. now left.
        -- right. exists k. split; [exact Hk|].
           now replace (S i0 + k + 4)%nat with (i0 + S k + 4)%nat by lia.
Qed.

(** X15: [filter_names] never raises, short master rows included, and
    keeps at most the names it is given: the name at position [k] is kept
    exactly when the master sheet has a row at index [k + 4] whose second
    cell is empty or missing. *)
Theorem filter_names_spec
        (master_values : list (list string)) (names : list string) :
  exists out,
    filter_names master_values names = Ok out
    /\ (length out <= length names)%nat
    /\ forall name,
        In name out
        <-> exists k row,
            nth_error names k = Some name
            /\ nth_error master_values (k + 4) = Some row
            /\ nth 1 row "" = "".
Proof.
  unfold filter_names. rewrite column_b_eq. cbn [bind].
  destruct (filter_names_loop_spec
              (map (fun row => nth 1 row "") master_values) names 0 [])
    as (out & Hout & Hlen & Hiff).
  exists out. split; [exact Hout|]. split; [exact Hlen|].
  intros name. rewrite Hiff. split.
  - intros [[]|(k & Hk & Hc)]. cbn [Nat.add] in Hc.
    rewrite nth_error_map in Hc.
    destruct (nth_error master_values (k + 4)) as [row|] eqn:Hrow;
      [|discriminate].
    exists k, row. split; [exact Hk|]. split; [exact Hrow|].
    simpl in Hc. now injection Hc.
  - intros (k & row & Hk & Hrow & Hc). right. exists k.
    split; [exact Hk|]. cbn [Nat.add].
    rewrite nth_error_map, Hrow. simpl. now rewrite Hc.
Qed.

(** ** The question list *)

Lemma first_line_no_newline (s : string) :
  occurs newline (first_line s) = false.
Proof.
  induction s as [|c s IH]; [reflexivity|].
  cbn [first_line]. destruct (Ascii.eqb c newline) eqn:E; [reflexivity|].
  cbn [occurs]. rewrite IH, orb_false_r, Ascii.eqb_sym. exact E.
Qed.

Lemma first_line_prefix (s : string) :
  s = first_line s
  \/ exists rest, s = (first_line s ++ String newline rest)%string.
Proof.
  induction s as [|c s IH]; [now left|].
  cbn [first_line]. destruct (Ascii.eqb c newline) eqn:E.
  - right. apply Ascii.eqb_eq in E. subst c. now exists s.
  - destruct IH as [IH|[rest IH]].
    + left. now rewrite <- IH.
    + right. exists rest. cbn [append]. now rewrite <- IH.
Qed.

Lemma questions_loop_spec (header_row out : list string) :
  (length (questions_loop header_row out)
   <= length out + length header_row)%nat
  /\ forall q,
      In q (questions_loop header_row out)
      <-> In q out
          \/ exists header,
              In header header_row /\ q = first_line header
              /\ q <> "Identifier"
              /\ contains "# of sessions attended" q = false.
Proof.
  revert out. induction header_row as [|h hs IH]; intros out.
  - simpl. split; [lia|]. intros q. split; [now left|].
    intros [H|(h & [] & _)]. exact H.
  - cbn [questions_loop]. cbv zeta.
    destruct (String.eqb (first_line h) "Identifier") eqn:E1; cbn [negb andb].
    + destruct (IH out) as [Hlen Hiff]. split; [simpl; lia|].
      intros q. rewrite Hiff. split.
      * intros [H|(h' & Hin & Hq)]; [now left|right].
        exists h'. split; [now right|exact Hq].
      * intros [H|(h' & [<-|Hin] & Hq & Hne & Hp)]; [now left| |].
        -- apply String.eqb_eq in E1. congruence.
        -- right. exists h'. now repeat split.
    + apply String.eqb_neq in E1.
      destruct (contains "# of sessions attended" (first_line h)) eqn:E2;
        cbn [negb].
      * destruct (IH out) as [Hlen Hiff]. split; [simpl; lia|].
        intros q. rewrite Hiff. split.
        -- intros [H|(h' & Hin & Hq)]; [now left|right].
           exists h'. split; [now right|exact Hq].
        -- intros [H|(h' & [<-|Hin] & Hq & Hne & Hp)]; [now left| |].
           ++ subst q. congruence.
           ++ right. exists h'. now repeat split.
      * destruct (IH (out ++ [first_line h])%list) as [Hlen Hiff].
        split; [rewrite length_app in Hlen; simpl in *; lia|].
        intros q. rewrite Hiff, in_app_iff. split.
        -- intros [[H|[<-|[]]]|(h' & Hin & Hq)].
           ++ now left.
           ++ right. exists h. split; [now left|now repeat split].
           ++ right. exists h'. split; [now right|exact Hq].
        -- intros [H|(h' & [<-|Hin] & Hq & Hne & Hp)].
           ++ left. now left.
           ++ left. right. left. now symmetry.
           ++ right. exists h'. now repeat split.
Qed.

(** X16: [get_questions_from_master] returns at most one question per
    header; a text is a question exactly when it is the first line of some
    header, is not "Identifier" and does not contain "# of sessions
    attended"; and no question contains a line feed. *)
Theorem get_questions_from_master_spec (header_row : list string) :
  (length (get_questions_from_master header_row) <= length header_row)%nat
  /\ (forall q,
         In q (get_questions_from_master header_row)
         <-> exists header,
             In header header_row /\ q = first_line header
             /\ q <> "Identifier"
             /\ contains "# of sessions attended" q = false)
  /\ forall q,
      In q (get_questions_from_master header_row) ->
      occurs newline q = false
      /\ exists header,
          In header header_row
          /\ (header = q
              \/ exists rest, header = (q ++ String newline rest)%string).
Proof.
  destruct (questions_loop_spec header_row []) as [Hlen Hiff].
  unfold get_questions_from_master.
  assert (Hiff' : forall q,
             In q (questions_loop header_row [])
             <-> exists header,
                 In header header_row /\ q = first_line header
                 /\ q <> "Identifier"
                 /\ contains "# of sessions attended" q = false).
  { intros q. rewrite Hiff. split.
    - intros [[]|H]. exact H.
    - intros H. now right. }
  split; [exact Hlen|]. split; [exact Hiff'|].
  intros q Hq. apply Hiff' in Hq. destruct Hq as (h & Hin & -> & _).
  split; [apply first_line_no_newline|].
  exists h. split; [exact Hin|]. apply first_line_prefix.
Qed.

(** ** The sanitizer and the vocabulary *)

Lemma contains_single (c : ascii) (s : string) :
  contains (String c "") s = occurs c s.
Proof.
  induction s as [|d s IH]; [reflexivity|].
  cbn [contains starts_with occurs]. rewrite IH.
  destruct (Ascii.eqb c d); destruct s; reflexivity.
Qed.

Lemma colon_lower_char (d : ascii) :
  Ascii.eqb ":" (lower_char d) = Ascii.eqb ":" d.
Proof.
  destruct d as [b0 b1 b2 b3 b4 b5 b6 b7].
  destruct b0, b1, b2, b3, b4, b5, b6, b7; reflexivity.
Qed.

Lemma occurs_colon_lower (s : string) : occurs ":" (lower s) = occurs ":" s.
Proof.
  induction s as [|d s IH]; [reflexivity|].
  cbn [lower occurs]. now rewrite colon_lower_char, IH.
Qed.

Lemma eqb_space_false (c d : ascii) :
  isspace c = false -> isspace d = true -> Ascii.eqb c d = false.
Proof.
  intros Hc Hd. destruct (Ascii.eqb c d) eqn:E; [|reflexivity].
  apply Ascii.eqb_eq in E. congruence.
Qed.

Lemma occurs_lstrip (c : ascii) (s : string) :
  isspace c = false -> occurs c (lstrip s) = occurs c s.
Proof.
  intros Hc. induction s as [|d s IH]; [reflexivity|].
  cbn [lstrip]. destruct (isspace d) eqn:Hd; [|reflexivity].
  cbn [occurs]. now rewrite (eqb_space_false c d Hc Hd), IH.
Qed.

Lemma occurs_rstrip (c : ascii) (s : string) :
  isspace c = false -> occurs c (rstrip s) = occurs c s.
Proof.
  intros Hc. induction s as [|d s IH]; [reflexivity|].
  cbn [rstrip occurs]. rewrite <- IH.
  destruct (rstrip s) as [|e t]; cbn [is_empty andb].
  - destruct (isspace d) eqn:Hd.
    + cbn [occurs]. now rewrite (eqb_space_false c d Hc Hd).
    + reflexivity.
  - reflexivity.
Qed.

Lemma vocabulary_keys_without_colon :
  forallb key_without_colon vocabulary = true.
Proof. vm_compute. reflexivity. Qed.

(** X17: the sanitizer never touches an answer the vocabulary knows: when
    the lower-cased, trimmed answer is a vocabulary entry, the answer
    contains no colon, [filter_responses] leaves it as it is, and it is
    encoded with the entry's code after sanitizing. *)
Theorem sanitizer_keeps_vocabulary_answers
        (d : Sheets) (s v : string) (n : Z) (rs : list string) :
  In (v, n) vocabulary ->
  strip (lower s) = v ->
  filter_responses [s] = [s]
  /\ filter_response s = s
  /\ response_to_number_helper d (Some (filter_response s)) rs = Ok (Int n).
Proof.
  intros Hin Hv.
  assert (Hcolon : contains ":" s = false).
  { rewrite contains_single, <- occurs_colon_lower.
    rewrite <- (occurs_lstrip ":" (lower s)) by reflexivity.
    rewrite <- (occurs_rstrip ":" (lstrip (lower s))) by reflexivity.
    fold (strip (lower s)). rewrite Hv.
    pose proof (proj1 (forallb_forall key_without_colon vocabulary)
                      vocabulary_keys_without_colon _ Hin) as H.
    unfold key_without_colon in H. cbn [fst] in H.
    now apply negb_true_iff in H. }
  assert (Hf : filter_response s = s).
  { unfold filter_response. now rewrite Hcolon. }
  split; [now rewrite filter_responses_map; simpl; rewrite Hf|].
  split; [exact Hf|].
  rewrite Hf. unfold response_to_number_helper. rewrite Hv.
  destruct (vocabulary_entry v n Hin) as [_ Hcase].
  now rewrite Hcase.
Qed.

Lemma sanitizer_keeps_vocabulary_answers_witness :
  filter_responses [" Heme/Onc "] = [" Heme/Onc "]
  /\ filter_response " Heme/Onc " = " Heme/Onc "
  /\ response_to_number_helper free_text_sheets
                               (Some (filter_response " Heme/Onc "))
                               ["3/14/2023 10:00:00"]
     = Ok (Int 5).
Proof.
  apply (sanitizer_keeps_vocabulary_answers
           free_text_sheets " Heme/Onc " "heme/onc" 5%Z
           ["3/14/2023 10:00:00"]).
  - unfold vocabulary. repeat (try (left; reflexivity); right).
  - reflexivity.
Defined.

(** ** The header normalizer *)

Lemma qmark_lower_char (d : ascii) :
  Ascii.eqb (lower_char d) "?" = Ascii.eqb d "?".
Proof.
  destruct d as [b0 b1 b2 b3 b4 b5 b6 b7].
  destruct b0, b1, b2, b3, b4, b5, b6, b7; reflexivity.
Qed.

Lemma lower_remove_char (s : string) :
  lower (remove_char "?" s) = remove_char "?" (lower s).
Proof.
  induction s as [|d s IH]; [reflexivity|].
  cbn [remove_char lower]. rewrite qmark_lower_char.
  destruct (Ascii.eqb d "?"); [exact IH|].
  cbn [lower]. now rewrite IH.
Qed.

Lemma lower_lstrip (s : string) : lower (lstrip s) = lstrip (lower s).
Proof.
  induction s as [|d s IH]; [reflexivity|].
  cbn [lstrip lower]. rewrite isspace_lower_char.
  destruct (isspace d); [exact IH|reflexivity].
Qed.

Lemma is_empty_lower (s : string) : is_empty (lower s) = is_empty s.
Proof. destruct s; reflexivity. Qed.

Lemma lower_rstrip (s : string) : lower (rstrip s) = rstrip (lower s).
Proof.
  induction s as [|d s IH]; [reflexivity|].
  cbn [rstrip lower]. rewrite <- IH, is_empty_lower, isspace_lower_char.
  destruct (is_empty (rstrip s) && isspace d); reflexivity.
Qed.

Lemma lower_collapse (b : bool) (s : string) :
  lower (collapse_from b s) = collapse_from b (lower s).
Proof.
  revert b. induction s as [|d s IH]; intros b; [reflexivity|].
  cbn [collapse_from lower]. rewrite isspace_lower_char.
  destruct (isspace d).
  - destruct b; [apply IH|]. cbn [lower]. now rewrite IH.
  - cbn [lower]. now rewrite IH.
Qed.

Lemma lower_normalize (s : string) : lower (normalize s) = normalize s.
Proof.
  unfold normalize, collapse_ws, strip.
  now rewrite lower_collapse, lower_rstrip, lower_lstrip, lower_remove_char,
    lower_idem.
Qed.

Lemma occurs_remove_char (c : ascii) (s : string) :
  occurs c (remove_char c s) = false.
Proof.
  induction s as [|d s IH]; [reflexivity|].
  cbn [remove_char]. destruct (Ascii.eqb d c) eqn:E; [exact IH|].
  cbn [occurs]. now rewrite Ascii.eqb_sym, E, IH.
Qed.

Lemma remove_char_absent (c : ascii) (s : string) :
  occurs c s = false -> remove_char c s = s.
Proof.
  induction s as [|d s IH]; [reflexivity|].
  cbn [occurs remove_char]. intros H.
  apply orb_false_iff in H as [Hd Hs].
  rewrite Ascii.eqb_sym, Hd. now rewrite IH.
Qed.

Lemma occurs_collapse (c : ascii) (b : bool) (s : string) :
  isspace c = false -> occurs c (collapse_from b s) = occurs c s.
Proof.
  intros Hc. revert b. induction s as [|d s IH]; intros b; [reflexivity|].
  cbn [collapse_from occurs]. destruct (isspace d) eqn:Hd.
  - rewrite (eqb_space_false c d Hc Hd). cbn [orb].
    destruct b; [apply IH|].
    cbn [occurs]. rewrite (eqb_space_false c " " Hc eq_refl). apply IH.
  - cbn [occurs]. now rewrite IH.
Qed.

Lemma normalize_no_qmark (s : string) : occurs "?" (normalize s) = false.
Proof.
  unfold normalize, collapse_ws, strip.
  rewrite occurs_collapse, occurs_rstrip, occurs_lstrip by reflexivity.
  apply occurs_remove_char.
Qed.

Lemma lstrip_lstrip (s : string) : lstrip (lstrip s) = lstrip s.
Proof.
  induction s as [|d s IH]; [reflexivity|].
  cbn [lstrip]. destruct (isspace d) eqn:Hd; [exact IH|].
  cbn [lstrip]. now rewrite Hd.
Qed.

Lemma rstrip_rstrip (s : string) : rstrip (rstrip s) = rstrip s.
Proof.
  induction s as [|d s IH]; [reflexivity|].
  cbn [rstrip]. destruct (is_empty (rstrip s) && isspace d) eqn:E;
    [reflexivity|].
  cbn [rstrip]. now rewrite IH, E.
Qed.

Lemma lstrip_fix_rstrip (u : string) :
  lstrip u = u -> lstrip (rstrip u) = rstrip u.
Proof.
  destruct u as [|d u]; [reflexivity|].
  cbn [lstrip rstrip]. destruct (isspace d) eqn:Hd.
  - intros H. exfalso.
    assert (Hlen : String.length (lstrip u) <= String.length u).
    { clear. induction u as [|e u IH]; simpl; [lia|].
      destruct (isspace e); simpl; lia. }
    rewrite H in Hlen. simpl in Hlen. lia.
  - intros _. rewrite andb_false_r. cbn [lstrip]. now rewrite Hd.
Qed.

Lemma lstrip_fix_collapse (y : string) :
  lstrip y = y -> lstrip (collapse_from false y) = collapse_from false y.
Proof.
  destruct y as [|d y]; [reflexivity|].
  cbn [lstrip collapse_from]. destruct (isspace d) eqn:Hd.
  - intros H. exfalso.
    assert (Hlen : String.length (lstrip y) <= String.length y).
    { clear. induction y as [|e y IH]; simpl; [lia|].
      destruct (isspace e); simpl; lia. }
    rewrite H in Hlen. simpl in Hlen. lia.
  - intros _. cbn [lstrip]. now rewrite Hd.
Qed.

Lemma collapse_empty_all_space (b : bool) (y : string) :
  is_empty (collapse_from b y) = true -> all_space y = true.
Proof.
  revert b. induction y as [|d y IH]; intros b; [reflexivity|].
  cbn [collapse_from all_space]. destruct (isspace d).
  - destruct b; [apply IH|discriminate].
  - discriminate.
Qed.

Lemma rstrip_fix_collapse (y : string) :
  rstrip y = y ->
  forall b, rstrip (collapse_from b y) = collapse_from b y.
Proof.
  induction y as [|d y IH]; [reflexivity|].
  cbn [rstrip]. destruct (is_empty (rstrip y) && isspace d) eqn:E;
    [discriminate|].
  intros H. injection H as Hy. specialize (IH Hy). intros b.
  cbn [collapse_from]. destruct (isspace d) eqn:Hd.
  - rewrite andb_true_r in E.
    assert (Hne : is_empty (collapse_from true y) = false).
    { destruct (is_empty (collapse_from true y)) eqn:Hc; [|reflexivity].
      apply collapse_empty_all_space in Hc.
      rewrite <- Hy, (rstrip_all_space y Hc) in E. discriminate. }
    destruct b; [apply IH|].
    cbn [rstrip]. rewrite (IH true), Hne. reflexivity.
  - cbn [rstrip]. rewrite (IH false), Hd, andb_false_r. reflexivity.
Qed.

Lemma strip_normalize (s : string) : strip (normalize s) = normalize s.
Proof.
  unfold normalize, collapse_ws.
  set (x := remove_char "?" (lower s)).
  assert (Hl : lstrip (strip x) = strip x).
  { unfold strip. apply lstrip_fix_rstrip. apply lstrip_lstrip. }
  assert (Hr : rstrip (strip x) = strip x).
  { unfold strip. apply rstrip_rstrip. }
  unfold strip at 1.
  rewrite (lstrip_fix_collapse _ Hl). now apply rstrip_fix_collapse.
Qed.

Lemma collapse_collapse (y : string) :
  (forall b, collapse_from false (collapse_from b y) = collapse_from b y)
  /\ collapse_from true (collapse_from true y) = collapse_from true y.
Proof.
  induction y as [|d y [IH1 IH2]]; [split; [intros b|]; reflexivity|].
  split.
  - intros b. cbn [collapse_from]. destruct (isspace d) eqn:Hd.
    + destruct b; [apply IH1|].
      cbn [collapse_from]. replace (isspace " ") with true by reflexivity.
      now rewrite IH2.
    + cbn [collapse_from]. now rewrite Hd, IH1.
  - cbn [collapse_from]. destruct (isspace d) eqn:Hd; [exact IH2|].
    cbn [collapse_from]. now rewrite Hd, IH1.
Qed.

Lemma normalize_idem (s : string) : normalize (normalize s) = normalize s.
Proof.
  unfold normalize at 1.
  rewrite lower_normalize.
  rewrite (remove_char_absent "?" _ (normalize_no_qmark s)).
  rewrite strip_normalize.
  unfold normalize, collapse_ws. apply (proj1 (collapse_collapse _)).
Qed.

(** X18: a normalized text is a fixed point of the normalizer: it is
    lower-case, has no question mark and no whitespace at its ends, and
    normalizing it again changes nothing; so [find_best_column] resolves a
    keyword and its normalized form to the same column. *)
Theorem normalize_canonical (s : string) :
  normalize (normalize s) = normalize s
  /\ lower (normalize s) = normalize s
  /\ occurs "?" (normalize s) = false
  /\ strip (normalize s) = normalize s
  /\ forall headers cutoff,
      find_best_column (normalize s) headers cutoff
      = find_best_column s headers cutoff.
Proof.
  split; [apply normalize_idem|].
  split; [apply lower_normalize|].
  split; [apply normalize_no_qmark|].
  split; [apply strip_normalize|].
  intros headers cutoff. unfold find_best_column.
  now rewrite normalize_idem.
Qed.

(** ** A participant without a pre-survey row *)

(** X21: for an identifier without a pre-survey row, whenever compiling
    raises nothing, every compiled response below position 36 is the text
    [ERROR]; the encoder keeps it as [ERROR] when the first question does
    not contain "write one word" and returns [error] when it does. *)
Theorem unmatched_row_general
        (d : Sheets) (identifier : string) (out : list string) :
  find_pre_row_by_id d identifier = Ok (-1)%Z ->
  compile_responses d identifier = Ok out ->
  (forall i, i < 36 -> i < length (questions d) ->
             nth_error out i = Some ERROR)
  /\ forall q0 qs,
      questions d = q0 :: qs ->
      response_to_number_helper d (Some ERROR) out
      = Ok (Str (if contains "write one word" (lower q0)
                 then "error" else ERROR)).
Proof.
  intros Hpre Hrun. split.
  - exact (unmatched_row_compiles_error d identifier out Hpre Hrun).
  - intros q0 qs Hq.
    exact (unmatched_row_encoding d identifier out q0 qs Hpre Hrun Hq).
Qed.

Lemma unmatched_row_general_witness :
  (forall i, i < 36 -> i < length (questions unmatched_sheets) ->
             nth_error [ERROR; ERROR] i = Some ERROR)
  /\ forall q0 qs,
      questions unmatched_sheets = q0 :: qs ->
      response_to_number_helper unmatched_sheets (Some ERROR) [ERROR; ERROR]
      = Ok (Str (if contains "write one word" (lower q0)
                 then "error" else ERROR)).
Proof.
  apply (unmatched_row_general unmatched_sheets "zz" [ERROR; ERROR]);
    reflexivity.
Defined.

(** ** Letter case of the identifier *)

Lemma find_value_lower (identifier identifier' : string)
      (vals : list string) (i : Z) :
  lower identifier' = lower identifier ->
  find_value identifier' vals i = find_value identifier vals i.
Proof.
  intros H. revert i. induction vals as [|v vs IH]; intros i; simpl.
  - reflexivity.
  - rewrite H. now rewrite IH.
Qed.

(** X22: the whole computation reads the identifier only up to letter
    case: two identifiers with the same lower-case form find the same
    rows and get the same compiled responses and the same numbers. *)
Theorem identifier_case_insensitive
        (d : Sheets) (identifier identifier' : string) :
  lower identifier' = lower identifier ->
  find_pre_row_by_id d identifier' = find_pre_row_by_id d identifier
  /\ find_post_row_by_id d identifier' = find_post_row_by_id d identifier
  /\ compile_responses d identifier' = compile_responses d identifier
  /\ get_user_numbers d identifier' = get_user_numbers d identifier.
Proof.
  intros H.
  assert (Hpre : find_pre_row_by_id d identifier'
                 = find_pre_row_by_id d identifier).
  { unfold find_pre_row_by_id.
    destruct (find_pre_column d "Personal Identifier:" =? -1)%Z;
      [reflexivity|].
    destruct (column_values _ (pre_values d)) as [vals|e]; [|reflexivity].
    cbn [bind]. now rewrite (find_value_lower identifier identifier'). }
  assert (Hpost : find_post_row_by_id d identifier'
                  = find_post_row_by_id d identifier).
  { unfold find_post_row_by_id.
    destruct (find_post_column d "Personal Identifier:" =? -1)%Z;
      [reflexivity|].
    destruct (column_values _ (post_values d)) as [vals|e]; [|reflexivity].
    cbn [bind]. now rewrite (find_value_lower identifier identifier'). }
  assert (Hc : compile_responses d identifier'
               = compile_responses d identifier).
  { unfold compile_responses. now rewrite Hpre, Hpost. }
  repeat split; auto.
  unfold get_user_numbers, count_attendance. now rewrite Hc, H.
Qed.

Lemma identifier_case_insensitive_witness :
  find_pre_row_by_id paired_sheets "AB" = find_pre_row_by_id paired_sheets "ab"
  /\ find_post_row_by_id paired_sheets "AB"
     = find_post_row_by_id paired_sheets "ab"
  /\ compile_responses paired_sheets "AB" = compile_responses paired_sheets "ab"
  /\ get_user_numbers paired_sheets "AB" = get_user_numbers paired_sheets "ab".
Proof.
  apply identifier_case_insensitive. reflexivity.
Defined.
